(** * Focus Flow: the coach page, the routines page and the data store

    A shallow embedding of [src/pages/AICoachPage.tsx] (the coach state
    machine), of the routines page (its render gate on the two routines) and
    of the data store the two pages call into, with the properties the
    specification states about them; then of what the pages render, of the
    route guard and of the password reset page, with properties read off
    their code. *)

From stdpp Require Import gmap strings list.
From Stdlib Require Import ZArith NArith Ascii String.

Local Open Scope N_scope.

(** ** JavaScript strings and values *)

(** A JavaScript string is a sequence of UTF-16 code units. *)
Definition jsstring := list N.

(** The code units of an ASCII literal of the source. *)
Definition lit (s : string) : jsstring :=
  map N_of_ascii (list_ascii_of_string s).

(** ECMAScript [WhiteSpace] and [LineTerminator] code points, the characters
    [String.prototype.trim] strips. All of them lie in the basic plane, so a
    code unit decides it. *)
Definition isWhiteSpace (c : N) : bool :=
  (c =? 9) || (c =? 10) || (c =? 11) || (c =? 12) || (c =? 13) || (c =? 32)
  || (c =? 160) || (c =? 5760) || ((8192 <=? c) && (c <=? 8202))
  || (c =? 8232) || (c =? 8233) || (c =? 8239) || (c =? 8287)
  || (c =? 12288) || (c =? 65279).

Fixpoint trimStart (s : jsstring) : jsstring :=
  match s with
  | [] => []
  | c :: s' => if isWhiteSpace c then trimStart s' else s
  end.

Definition trimEnd (s : jsstring) : jsstring := rev (trimStart (rev s)).

Definition trim (s : jsstring) : jsstring := trimEnd (trimStart s).

#[local] Set Warnings "-register-all".

(** The values a parsed function response can hold. Numbers are the integral
    ones; an object is its list of own properties. *)
Inductive jsval : Type :=
  | VUndefined
  | VNull
  | VBool (b : bool)
  | VNum (z : Z)
  | VStr (s : jsstring)
  | VObj (fields : list (string * jsval)).

(** JavaScript truthiness ([ToBoolean]). *)
Definition truthy (v : jsval) : bool :=
  match v with
  | VUndefined | VNull => false
  | VBool b => b
  | VNum z => negb (z =? 0)%Z
  | VStr s => match s with [] => false | _ => true end
  | VObj _ => true
  end.

Fixpoint assoc (k : string) (fields : list (string * jsval)) : jsval :=
  match fields with
  | [] => VUndefined
  | (k', v) :: rest => if String.eqb k k' then v else assoc k rest
  end.

(** A thrown value: an error object and its [message] ([None] when the
    property is undefined). *)
Record JsError := mkError { message : option jsstring }.

Definition newError (m : string) : JsError := mkError (Some (lit m)).

Definition describe (v : jsval) : string :=
  match v with VNull => "null" | _ => "undefined" end.

(** The [TypeError] of a property read on [null] or [undefined]. *)
Definition typeError (base : jsval) (key : string) : JsError :=
  newError ("Cannot read properties of " +:+ describe base
            +:+ " (reading '" +:+ key +:+ "')").

(** [base.key]: throws on [null] and [undefined]; the properties read here
    ([response], [message]) exist on no primitive. *)
Definition getProp (base : jsval) (key : string) : JsError + jsval :=
  match base with
  | VUndefined | VNull => inl (typeError base key)
  | VObj fields => inr (assoc key fields)
  | _ => inr VUndefined
  end.

(** [Array.prototype.find]: the first element that passes the test. *)
Definition find {A} (P : A -> Prop) `{forall x, Decision (P x)} (l : list A)
  : option A :=
  snd <$> list_find P l.

(** [a || b] on an error message. *)
Definition messageOr (e : JsError) (fallback : jsstring) : jsstring :=
  match message e with
  | Some ((_ :: _) as m) => m
  | _ => fallback
  end.

(** The literal type ['morning' | 'evening']. *)
Inductive TimeOfDay := morning | evening.

#[global] Instance TimeOfDay_eq_dec : EqDecision TimeOfDay.
Proof. solve_decision. Defined.

(** ** The coach page *)

Module Coach.

Inductive CoachState := idle | thinking | talking.

Definition timeOfDayText (t : TimeOfDay) : jsstring :=
  match t with morning => lit "morning" | evening => lit "evening" end.

Inductive Segment := IDLE_LOOP | THINKING_LOOP | TALKING.

Definition ANIMATION_SEGMENTS (s : Segment) : Z * Z :=
  match s with
  | IDLE_LOOP => (0, 120)
  | THINKING_LOOP => (121, 200)
  | TALKING => (221, 300)
  end%Z.

(** [supabase.functions.invoke(name, { body })]. *)
Inductive Invocation :=
  | AiCoach (prompt : jsstring)
  | GenerateRoutine (timeOfDay : TimeOfDay).

(** What the page does to its collaborators. *)
Inductive Effect :=
  | Invoke (i : Invocation)
  | PlaySegments (s : Segment) (forceFlag : bool)
  | ToastError (text : jsstring)
  | ToastSuccess (title description : jsstring)
  | TriggerRoutinesRefresh.

(** The component's state hooks, and whether [lottieRef.current] is set. *)
Record Component := mkComponent {
  coachState : CoachState;
  currentMessage : jsval;
  inputValue : jsstring;
  lottieMounted : bool
}.

Definition initial : Component :=
  mkComponent idle
    (VStr (lit "Hello! I am the Clarity Sage. How can I help you find focus today?"))
    [] false.

(** The value an [await]ed invocation settles with. *)
Record Response := mkResponse { data : jsval; error : option JsError }.

Inductive Settled :=
  | Resolved (r : Response)
  | Rejected (e : JsError).

(** *** Handler bodies: state, emitted effects and exceptions *)

Inductive Result (A : Type) :=
  | Ok (a : A)
  | Throw (e : JsError).
Arguments Ok {A} a.
Arguments Throw {A} e.

Definition M (A : Type) : Type :=
  Component -> Result A * Component * list Effect.

Definition ret {A} (a : A) : M A := fun c => (Ok a, c, []).

Definition bind {A B} (m : M A) (k : A -> M B) : M B :=
  fun c =>
    match m c with
    | (Ok a, c1, e1) =>
        match k a c1 with (r, c2, e2) => (r, c2, e1 ++ e2) end
    | (Throw e, c1, e1) => (Throw e, c1, e1)
    end.

Definition throw {A} (e : JsError) : M A := fun c => (Throw e, c, []).

Definition tryCatch (body : M unit) (handler : JsError -> M unit) : M unit :=
  fun c =>
    match body c with
    | (Ok tt, c1, e1) => (Ok tt, c1, e1)
    | (Throw e, c1, e1) =>
        match handler e c1 with (r, c2, e2) => (r, c2, e1 ++ e2) end
    end.

#[local] Instance M_bind : MBind M := fun A B k m => bind m k.
#[local] Instance M_ret : MRet M := fun A a => ret a.

Definition emit (e : Effect) : M unit := fun c => (Ok tt, c, [e]).

Definition setCoachState (s : CoachState) : M unit :=
  fun c => (Ok tt,
            mkComponent s (currentMessage c) (inputValue c) (lottieMounted c),
            []).

Definition setCurrentMessage (m : jsval) : M unit :=
  fun c => (Ok tt,
            mkComponent (coachState c) m (inputValue c) (lottieMounted c),
            []).

Definition setInputValue (v : jsstring) : M unit :=
  fun c => (Ok tt,
            mkComponent (coachState c) (currentMessage c) v (lottieMounted c),
            []).

Definition readCoachState : M CoachState := fun c => (Ok (coachState c), c, []).

(** [lottieRef.current?.playSegments(segment, force)]. *)
Definition playSegments (s : Segment) (forceFlag : bool) : M unit :=
  fun c => (Ok tt, c, if lottieMounted c then [PlaySegments s forceFlag] else []).

Definition prop (base : jsval) (key : string) : M jsval :=
  match getProp base key with
  | inl e => throw e
  | inr v => ret v
  end.

(** [const { data, error } = await ...]: a rejection is thrown at the
    [await]. *)
Definition awaited (s : Settled) : M Response :=
  match s with
  | Resolved r => ret r
  | Rejected e => throw e
  end.

Definition throwIfError (r : Response) : M unit :=
  match error r with
  | Some e => throw e
  | None => ret tt
  end.

Definition CoachState_eqb (a b : CoachState) : bool :=
  match a, b with
  | idle, idle | thinking, thinking | talking, talking => true
  | _, _ => false
  end.

(** The effect hook on [coachState]. *)
Definition animationEffect : M unit :=
  fun c =>
    if lottieMounted c then
      if CoachState_eqb (coachState c) thinking
      then (Ok tt, c, [PlaySegments THINKING_LOOP true])
      else (Ok tt, c, [PlaySegments IDLE_LOOP true])
    else (Ok tt, c, []).

Definition isEmpty (s : jsstring) : bool :=
  match s with [] => true | _ => false end.

(** [handleSendMessage], up to its [await]: the guard and the entry into
    [thinking]. *)
Definition handleSendMessage (prompt : jsstring) : M unit :=
  st ← readCoachState;
  if isEmpty (trim prompt) || negb (CoachState_eqb st idle) then ret tt
  else
    setCoachState thinking ;;
    setCurrentMessage (VStr (lit "Let me ponder on that for a moment...")) ;;
    setInputValue [] ;;
    emit (Invoke (AiCoach prompt)).

(** [handleSendMessage] from its [await] on: the [try] body and the
    [catch]. *)
Definition handleSendMessage_settled (s : Settled) : M unit :=
  tryCatch
    (r ← awaited s;
     throwIfError r ;;
     response ← prop (data r) "response";
     (if truthy response then ret tt
      else throw (newError "The sage seems to be lost in thought...")) ;;
     playSegments TALKING false ;;
     setCoachState talking ;;
     setCurrentMessage response)
    (fun _ =>
       emit (ToastError (lit "The sage's crystal ball seems cloudy.")) ;;
       setCurrentMessage
         (VStr (lit "My apologies, my thoughts are unclear. Please ask again.")) ;;
       setCoachState talking).

(** [handleRoutineAction], up to its [await]. *)
Definition handleRoutineAction (timeOfDay : TimeOfDay) : M unit :=
  st ← readCoachState;
  if negb (CoachState_eqb st idle) then ret tt
  else
    setCoachState thinking ;;
    setCurrentMessage
      (VStr (lit "Crafting a " ++ timeOfDayText timeOfDay
             ++ lit " routine for you...")) ;;
    emit (Invoke (GenerateRoutine timeOfDay)).

(** [handleRoutineAction] from its [await] on. *)
Definition handleRoutineAction_settled (timeOfDay : TimeOfDay) (s : Settled)
  : M unit :=
  tryCatch
    (r ← awaited s;
     throwIfError r ;;
     playSegments TALKING false ;;
     setCoachState talking ;;
     msg ← prop (data r) "message";
     setCurrentMessage msg ;;
     emit (ToastSuccess (lit "Routine updated!")
             (lit "New habits have been added to your "
              ++ timeOfDayText timeOfDay ++ lit " routine page.")) ;;
     emit TriggerRoutinesRefresh)
    (fun e =>
       emit (ToastError
               (messageOr e (lit "Failed to generate "
                             ++ timeOfDayText timeOfDay ++ lit " routine."))) ;;
       setCurrentMessage
         (VStr (lit "I seem to have misplaced my quill. Could you ask again?")) ;;
       setCoachState talking).

(** The [onComplete] callback handed to the animation. *)
Definition onComplete : M unit :=
  st ← readCoachState;
  if CoachState_eqb st talking then setCoachState idle else ret tt.

(** The component after a handler, and what the handler emitted. *)
Definition after (m : M unit) (c : Component) : Component := (m c).1.2.
Definition emitted (m : M unit) (c : Component) : list Effect := (m c).2.

(** *** A session of the page

    The page, the invocations that have been issued and have not settled
    yet, and everything emitted so far. Every handler reads the state of the
    latest render. *)
Record Session := mkSession {
  page : Component;
  inFlight : list Invocation;
  history : list Effect
}.

Inductive Event :=
  | Submit (prompt : jsstring)
  | SubmitForm
  | Click (timeOfDay : TimeOfDay)
  | Change (value : jsstring)
  | Mounted
  | Settle (n : nat) (s : Settled)
  | Complete.

Fixpoint invocations (es : list Effect) : list Invocation :=
  match es with
  | [] => []
  | Invoke i :: es' => i :: invocations es'
  | _ :: es' => invocations es'
  end.

(** The continuation a settled invocation resumes. *)
Definition settled (i : Invocation) (s : Settled) : M unit :=
  match i with
  | AiCoach _ => handleSendMessage_settled s
  | GenerateRoutine t => handleRoutineAction_settled t s
  end.

(** Run a handler, then the effect hook when [coachState] changed. *)
Definition run (m : M unit) (w : Session) : Session :=
  let c' := after m (page w) in
  let es := emitted m (page w) in
  let hook :=
    if CoachState_eqb (coachState (page w)) (coachState c') then []
    else emitted animationEffect c' in
  mkSession c' (inFlight w ++ invocations es) (history w ++ es ++ hook).

Definition setLottie : M unit :=
  fun c => (Ok tt,
            mkComponent (coachState c) (currentMessage c) (inputValue c) true,
            []).

(** The animation mounts: the ref is set and the effect hook runs. *)
Definition onMount : M unit := setLottie ;; animationEffect.

Definition step (w : Session) (ev : Event) : Session :=
  match ev with
  | Submit prompt => run (handleSendMessage prompt) w
  | SubmitForm => run (handleSendMessage (inputValue (page w))) w
  | Click t => run (handleRoutineAction t) w
  | Change v => run (setInputValue v) w
  | Mounted => run onMount w
  | Settle n s =>
      match inFlight w !! n with
      | Some i =>
          run (settled i s)
              (mkSession (page w) (delete n (inFlight w)) (history w))
      | None => w
      end
  | Complete => run onComplete w
  end.

Definition start : Session := mkSession initial [] [].

Definition runs (evs : list Event) : Session := foldl step start evs.

(** At most one invocation is outstanding, and only while [thinking]. *)
Definition exclusive (w : Session) : Prop :=
  inFlight w = []
  \/ (coachState (page w) = thinking /\ exists i, inFlight w = [i]).

(** An invocation that brings nothing usable under [key]: a rejection, an
    error, or a property that is missing, empty or unreadable. *)
Definition unusable (key : string) (s : Settled) : Prop :=
  match s with
  | Rejected _ => True
  | Resolved r =>
      is_Some (error r)
      \/ match getProp (data r) key with
         | inl _ => True
         | inr v => truthy v = false
         end
  end.

End Coach.

(** ** The entities of [services/api] *)

Module api.

(** Modelled from the spec: the declaration of [api.Routine] is not part of
    the sources at hand; the fields are the ones the routines page reads
    ([id], [name], [time_of_day]) and the data model lists. *)
Record Routine := mkRoutine {
  id : Z;
  name : jsstring;
  time_of_day : TimeOfDay
}.

(** Modelled from the spec: the declaration of the habit type is not part of
    the sources at hand; [{ id, name, routine_id }] of the data model. *)
Record Habit := mkHabit {
  habit_id_of : Z;
  habit_name : jsstring;
  routine_id : Z
}.

(** Modelled from the spec: the declaration of the log type is not part of
    the sources at hand; [{ habit_id, date, completed }] of the data model. *)
Record HabitLog := mkHabitLog {
  habit_id : Z;
  date : jsstring;
  completed : bool
}.

#[global] Instance Routine_eq_dec : EqDecision Routine.
Proof. solve_decision. Defined.
#[global] Instance Habit_eq_dec : EqDecision Habit.
Proof. solve_decision. Defined.
#[global] Instance HabitLog_eq_dec : EqDecision HabitLog.
Proof. solve_decision. Defined.

End api.

(** ** The data store *)

Module DataStore.
Import api.

(** Modelled from the spec: [stores/useDataStore] is not part of the sources
    at hand. The state exposed to readers, as the routines page destructures
    it. *)
Record Cache := mkCache {
  routines : list Routine;
  habits : list Habit;
  habitLogs : list HabitLog;
  isLoadingRoutines : bool
}.

(** Modelled from the spec: the failure kinds of the RemoteAPI contract. *)
Inductive Failure := NetworkError | ValidationError.

(** Modelled from the spec: how a RemoteAPI call settles, with its value or
    with a failure. *)
Inductive Outcome (A : Type) :=
  | Success (a : A)
  | Failed (e : Failure).
Arguments Success {A} a.
Arguments Failed {A} e.

(** Modelled from the spec: what [fetchAll] returns. *)
Record Fetched := mkFetched {
  fetched_routines : list Routine;
  fetched_habits : list Habit;
  fetched_habitLogs : list HabitLog
}.

(** Modelled from the spec: the calls of the RemoteAPI contract. *)
Inductive RemoteCall :=
  | fetchAll
  | createHabit (name : jsstring) (routineId : Z)
  | setHabitCompletion (habitId : Z) (day : jsstring) (done : bool)
  | deleteHabitCall (habitId : Z)
  | deleteRoutineCall (routineId : Z).

#[global] Instance RemoteCall_eq_dec : EqDecision RemoteCall.
Proof. solve_decision. Defined.

(** Modelled from the spec: the store is the cache, the fetch in flight (the
    promise every caller of an outstanding fetch holds), the outcomes of the
    fetches that settled, the number of toggles issued per habit, the calls
    sent to RemoteAPI and the failures surfaced. *)
Record Store := mkStore {
  cache : Cache;
  fetchInFlight : option nat;
  nextPromise : nat;
  fetchResults : gmap nat (Outcome Cache);
  toggleVersion : gmap Z nat;
  calls : list RemoteCall;
  surfaced : list Failure
}.

(** Modelled from the spec: the store's [set] on each part of its state. *)
Definition withCache (c : Cache) (s : Store) : Store :=
  mkStore c (fetchInFlight s) (nextPromise s) (fetchResults s)
          (toggleVersion s) (calls s) (surfaced s).

(** Modelled from the spec: the cache with its loading flag set to [b]. *)
Definition withLoading (b : bool) (c : Cache) : Cache :=
  mkCache (routines c) (habits c) (habitLogs c) b.

(** Modelled from the spec: the cache with its logs replaced. *)
Definition withLogs (l : list HabitLog) (c : Cache) : Cache :=
  mkCache (routines c) (habits c) l (isLoadingRoutines c).

(** Modelled from the spec: [fetchRoutinesAndHabits()] up to its network
    call. With a fetch outstanding the caller is handed the promise of that
    fetch and nothing is sent; otherwise the loading flag is set and one
    [fetchAll] is sent. *)
Definition fetchRoutinesAndHabits (s : Store) : Store * nat :=
  match fetchInFlight s with
  | Some p => (s, p)
  | None =>
      let p := nextPromise s in
      (mkStore (withLoading true (cache s)) (Some p) (S p) (fetchResults s)
               (toggleVersion s) (calls s ++ [fetchAll]) (surfaced s), p)
  end.

(** Modelled from the spec: the outstanding fetch settles. On success the
    cache is replaced in one step; on failure it is left as it was and the
    failure is reported; the loading flag is cleared in both outcomes. *)
Definition fetchSettled (o : Outcome Fetched) (s : Store) : Store :=
  match fetchInFlight s with
  | None => s
  | Some p =>
      match o with
      | Success d =>
          let c := mkCache (fetched_routines d) (fetched_habits d)
                           (fetched_habitLogs d) false in
          mkStore c None (nextPromise s) (<[p := Success c]> (fetchResults s))
                  (toggleVersion s) (calls s) (surfaced s)
      | Failed e =>
          mkStore (withLoading false (cache s)) None (nextPromise s)
                  (<[p := Failed e]> (fetchResults s))
                  (toggleVersion s) (calls s) (surfaced s ++ [e])
      end
  end.

(** Modelled from the spec: what a caller holding promise [p] of a fetch
    observes. *)
Definition observed (p : nat) (s : Store) : option (Outcome Cache) :=
  fetchResults s !! p.

(** Modelled from the spec: a log is the entry of the pair
    [(habit_id, date)]. *)
Definition sameEntry (h : Z) (day : jsstring) (l : HabitLog) : Prop :=
  habit_id l = h ∧ date l = day.

#[global] Instance sameEntry_dec h day l : Decision (sameEntry h day l).
Proof. unfold sameEntry. apply _. Defined.

(** Modelled from the spec: the cache's entry for [(h, day)], when there is
    one. *)
Definition logFor (h : Z) (day : jsstring) (logs : list HabitLog)
  : option HabitLog :=
  find (sameEntry h day) logs.

(** Modelled from the spec: write or overwrite the entry of a log's
    [(habit_id, date)] pair. *)
Definition writeLog (l : HabitLog) (logs : list HabitLog) : list HabitLog :=
  match logFor (habit_id l) (date l) logs with
  | Some _ =>
      (fun x => if decide (sameEntry (habit_id l) (date l) x) then l else x)
        <$> logs
  | None => logs ++ [l]
  end.

(** Modelled from the spec: put the entry for [(h, day)] back to a previous
    value, removing it when there was none. *)
Definition revertLog (h : Z) (day : jsstring) (previous : option HabitLog)
    (logs : list HabitLog) : list HabitLog :=
  match previous with
  | Some old => writeLog old logs
  | None => filter (fun l => ¬ sameEntry h day l) logs
  end.

(** Modelled from the spec: what the continuation of a toggle has captured:
    the habit, the day, the entry before the toggle and the toggle's
    version. *)
Record Toggle := mkToggle {
  toggled : Z;
  day : jsstring;
  previous : option HabitLog;
  version : nat
}.

(** Modelled from the spec: [toggleHabit(habitId, completed)] up to its
    network call, on the day [today]: the entry is written at once, the
    toggle takes the habit's next version, and [setHabitCompletion] is
    sent. *)
Definition toggleHabit (habitId : Z) (done : bool) (today : jsstring)
    (s : Store) : Store * Toggle :=
  let prev := logFor habitId today (habitLogs (cache s)) in
  let v := S (default 0%nat (toggleVersion s !! habitId)) in
  let logs := writeLog (mkHabitLog habitId today done) (habitLogs (cache s)) in
  (mkStore (withLogs logs (cache s)) (fetchInFlight s) (nextPromise s)
           (fetchResults s) (<[habitId := v]> (toggleVersion s))
           (calls s ++ [setHabitCompletion habitId today done]) (surfaced s),
   mkToggle habitId today prev v).

(** Modelled from the spec: a toggle's network call settles. Success
    changes nothing more. A failure is surfaced, and the entry is put back
    to its value before the toggle unless a later toggle of the same habit
    has been issued since (the response is then stale and is compared
    away). *)
Definition toggleSettled (t : Toggle) (o : Outcome unit) (s : Store) : Store :=
  match o with
  | Success _ => s
  | Failed e =>
      let c :=
        if decide (toggleVersion s !! toggled t = Some (version t))
        then withLogs (revertLog (toggled t) (day t) (previous t)
                                 (habitLogs (cache s))) (cache s)
        else cache s in
      mkStore c (fetchInFlight s) (nextPromise s) (fetchResults s)
              (toggleVersion s) (calls s) (surfaced s ++ [e])
  end.

(** Modelled from the spec: [deleteRoutine(routineId)] up to its network
    call; it forwards to RemoteAPI and touches nothing yet. *)
Definition deleteRoutine (routineId : Z) (s : Store) : Store :=
  mkStore (cache s) (fetchInFlight s) (nextPromise s) (fetchResults s)
          (toggleVersion s) (calls s ++ [deleteRoutineCall routineId])
          (surfaced s).

(** Modelled from the spec: the habits of a routine, by [routine_id]. *)
Definition habitsOf (routineId : Z) (c : Cache) : list Habit :=
  filter (fun h => routine_id h = routineId) (habits c).

(** Modelled from the spec: the cascade of a routine's deletion: the
    routine, the habits with that [routine_id], the logs of those habits. *)
Definition cascade (routineId : Z) (c : Cache) : Cache :=
  let gone := habit_id_of <$> habitsOf routineId c in
  mkCache (filter (fun r => id r ≠ routineId) (routines c))
          (filter (fun h => routine_id h ≠ routineId) (habits c))
          (filter (fun l => habit_id l ∉ gone) (habitLogs c))
          (isLoadingRoutines c).

(** Modelled from the spec: the deletion's network call settles: the
    cascade on success, the cache as it was and the failure surfaced
    otherwise. *)
Definition deleteRoutineSettled (routineId : Z) (o : Outcome unit)
    (s : Store) : Store :=
  match o with
  | Success _ => withCache (cascade routineId (cache s)) s
  | Failed e =>
      mkStore (cache s) (fetchInFlight s) (nextPromise s) (fetchResults s)
              (toggleVersion s) (calls s) (surfaced s ++ [e])
  end.

(** Modelled from the spec: the store before anything was fetched. *)
Definition empty : Store :=
  mkStore (mkCache [] [] [] false) None 0%nat ∅ ∅ [] [].

End DataStore.

(** ** The routines page *)

Module RoutinesPage.
Import api DataStore.

Inductive Icon := Sunrise | Sunset.

(** One [Tome] of the page with its [HabitTracker]. *)
Record Card := mkCard {
  title : jsstring;
  icon : Icon;
  trackedHabits : list Habit;
  trackedLogs : list HabitLog;
  animationDelay : string
}.

Inductive View :=
  | Spinner
  | Fallback (text : string)
  | Rituals (cards : list Card).

Definition renderRoutineCard (c : Cache) (routine : Routine) (delay : string)
  : Card :=
  mkCard (name routine)
         (if decide (time_of_day routine = morning) then Sunrise else Sunset)
         (filter (fun h => routine_id h = id routine) (habits c))
         (habitLogs c)
         delay.

(** What the component returns for a snapshot of the store. *)
Definition render (c : Cache) : View :=
  if isLoadingRoutines c then Spinner
  else
    let morningRoutine :=
      find (fun r => time_of_day r = morning) (routines c) in
    let eveningRoutine :=
      find (fun r => time_of_day r = evening) (routines c) in
    match morningRoutine, eveningRoutine with
    | Some m, Some e =>
        Rituals [renderRoutineCard c m "0s"; renderRoutineCard c e "0.2s"]
    | _, _ =>
        Fallback "The ancient tomes could not be found. Please try refreshing the page."
    end.

End RoutinesPage.

(** ** What the coach page renders *)

Module CoachView.
Import Coach.

(** The text of the speech bubble: a [TypeAnimation] over a sequence while
    talking, a paragraph otherwise. *)
Inductive BubbleText :=
  | Typed (sequence : list jsval)
  | Paragraph (text : jsval).

Record Bubble := mkBubble {
  bubbleKey : jsval;
  dimmed : bool;
  body : BubbleText
}.

(** [{value && <element/>}]: the element when [value] is truthy, the falsy
    value itself (left to React) otherwise. *)
Inductive Slot (A : Type) :=
  | Shown (a : A)
  | Skipped (v : jsval).
Arguments Shown {A} a.
Arguments Skipped {A} v.

Record RoutineButton := mkRoutineButton {
  suggests : TimeOfDay;
  buttonDisabled : bool;
  buttonSpinner : bool
}.

Record View := mkView {
  bubble : Slot Bubble;
  routineButtons : list RoutineButton;
  inputShown : jsstring;
  inputDisabled : bool;
  sendDisabled : bool
}.

Definition routineButton (c : Component) (t : TimeOfDay) : RoutineButton :=
  mkRoutineButton t (negb (CoachState_eqb (coachState c) idle))
                  (CoachState_eqb (coachState c) thinking).

(** The JSX the component returns. *)
Definition render (c : Component) : View :=
  mkView
    (if truthy (currentMessage c)
     then Shown (mkBubble (currentMessage c)
                   (CoachState_eqb (coachState c) thinking)
                   (if CoachState_eqb (coachState c) talking
                    then Typed [currentMessage c]
                    else Paragraph (currentMessage c)))
     else Skipped (currentMessage c))
    [routineButton c morning; routineButton c evening]
    (inputValue c)
    (negb (CoachState_eqb (coachState c) idle))
    (negb (CoachState_eqb (coachState c) idle) || isEmpty (trim (inputValue c))).

(** [thinking] and an outstanding invocation go together. *)
Definition tight (w : Session) : Prop :=
  (coachState (page w) = thinking /\ exists i, inFlight w = [i])
  \/ (coachState (page w) <> thinking /\ inFlight w = []).

End CoachView.

(** ** The route guard *)

Module ProtectedRoute.

Inductive View :=
  | Spinner
  | Navigate (to : string) (replace : bool)
  | Outlet.

(** The component, on what [useAuth()] gives it; [session] is the session
    object or [null]. *)
Definition render {Session : Type} (session : option Session) (loading : bool)
  : View :=
  if loading then Spinner
  else match session with
       | None => Navigate "/login" true
       | Some _ => Outlet
       end.

End ProtectedRoute.

(** ** The password reset page *)

Module ForgotPasswordPage.

(** The state hooks of the page and the form's [email] field. *)
Record Page := mkPage {
  loading : bool;
  authError : jsval;
  success : bool;
  email : jsstring
}.

Definition initial : Page := mkPage false VNull false [].

(** [supabase.auth.resetPasswordForEmail(email)]. *)
Inductive Effect :=
  | ResetPasswordForEmail (address : jsstring).

(** What the [await] settles with: the [error] of the resolved object, or a
    rejection. *)
Inductive Settled :=
  | Resolved (error : jsval)
  | Rejected (reason : jsval).

(** [a || b]. *)
Definition jsOr (a b : jsval) : jsval := if truthy a then a else b.

(** [handlePasswordReset], up to its [await]. *)
Definition handlePasswordReset (address : jsstring) (p : Page)
  : Page * list Effect :=
  (mkPage true VNull false (email p), [ResetPasswordForEmail address]).

(** The [catch] clause: [setAuthError(error.error_description ||
    error.message)]; the property reads throw on [null] and [undefined]. *)
Definition catchClause (e : jsval) (p : Page) : JsError + Page :=
  match getProp e "error_description" with
  | inl thrown => inl thrown
  | inr description =>
      if truthy description
      then inr (mkPage (loading p) description (success p) (email p))
      else
        match getProp e "message" with
        | inl thrown => inl thrown
        | inr m => inr (mkPage (loading p) m (success p) (email p))
        end
  end.

(** The [try] body after the [await]: [setSuccess(true)] and
    [form.reset()], unless there is an error to throw. *)
Definition tryBody (s : Settled) (p : Page) : jsval + Page :=
  match s with
  | Resolved err =>
      if truthy err then inl err
      else inr (mkPage (loading p) (authError p) true [])
  | Rejected reason => inl reason
  end.

(** [handlePasswordReset] from its [await] on: [try], [catch], [finally].
    The second component is what escapes the handler uncaught. *)
Definition handlePasswordReset_settled (s : Settled) (p : Page)
  : Page * option JsError :=
  let caught :=
    match tryBody s p with
    | inr p' => inr p'
    | inl e => catchClause e p
    end in
  match caught with
  | inr p' => (mkPage false (authError p') (success p') (email p'), None)
  | inl thrown => (mkPage false (authError p) (success p) (email p), Some thrown)
  end.

Record View := mkView {
  errorAlert : CoachView.Slot jsval;
  successAlert : bool;
  submitDisabled : bool;
  submitSpinner : bool
}.

(** The alerts and the submit button the component returns. *)
Definition render (p : Page) : View :=
  mkView (if truthy (authError p) then CoachView.Shown (authError p)
          else CoachView.Skipped (authError p))
         (success p)
         (loading p || success p)
         (loading p).

End ForgotPasswordPage.

(** ** The routines page: generating habits *)

Module RoutinesPageActions.
Import api.

(** What the handler does to its collaborators; a toast label is what the
    label callback returned, or what it threw. *)
Inductive Effect :=
  | InvokeGenerateRoutine (timeOfDay : TimeOfDay)
  | ToastLoading (label : string)
  | ToastSuccess (label : JsError + jsval)
  | ToastError (label : jsstring)
  | FetchRoutinesAndHabits.

(** [!!generatingRoutineId] on a [number | null]. *)
Definition isGenerating (generatingRoutineId : option Z) : bool :=
  match generatingRoutineId with
  | Some n => negb (n =? 0)%Z
  | None => false
  end.

(** [handleGenerateHabits], up to the invocation settling. *)
Definition handleGenerateHabits (routine : Routine)
    (generatingRoutineId : option Z) : option Z * list Effect :=
  (Some (id routine),
   [InvokeGenerateRoutine (time_of_day routine);
    ToastLoading "Consulting the ether for new rituals..."]).

(** The [success] label of the toast: [data.message || '...']. *)
Definition successLabel (data : jsval) : JsError + jsval :=
  match getProp data "message" with
  | inl thrown => inl thrown
  | inr m =>
      inr (if truthy m then m
           else VStr (lit "The ether has whispered new rituals!"))
  end.

(** The [error] label of the toast: [err.message || '...']. *)
Definition errorLabel (err : JsError) : jsstring :=
  messageOr err (lit "The divination failed.").

(** [handleGenerateHabits] once the invocation has settled: the [then]
    callback, the toast, the [finally]. *)
Definition handleGenerateHabits_settled (s : Coach.Settled)
    (generatingRoutineId : option Z) : option Z * list Effect :=
  (None,
   match s with
   | Coach.Rejected e => [ToastError (errorLabel e)]
   | Coach.Resolved r =>
       match Coach.error r with
       | Some e => [ToastError (errorLabel e)]
       | None =>
           [FetchRoutinesAndHabits; ToastSuccess (successLabel (Coach.data r))]
       end
   end).

Record Actions := mkActions {
  divineDisabled : bool;
  divineSpinner : bool
}.

(** The "Divine Rituals" button of a routine's card. *)
Definition renderActions (generatingRoutineId : option Z) (routine : Routine)
  : Actions :=
  mkActions (isGenerating generatingRoutineId)
            (bool_decide (generatingRoutineId = Some (id routine))).

End RoutinesPageActions.

(** * Properties *)

(** ** Trimming *)

Lemma trimStart_blank (s : jsstring) :
  Forall (fun c => isWhiteSpace c = true) s -> trimStart s = [].
Proof.
  induction 1 as [|c s Hc _ IH]; simpl; [reflexivity|].
  rewrite Hc. exact IH.
Qed.

Lemma trim_blank (s : jsstring) :
  Forall (fun c => isWhiteSpace c = true) s -> trim s = [].
Proof.
  intros H. unfold trim, trimEnd. rewrite (trimStart_blank s H). reflexivity.
Qed.

Lemma trimStart_nil_blank (s : jsstring) :
  trimStart s = [] -> Forall (fun c => isWhiteSpace c = true) s.
Proof.
  induction s as [|c s IH]; simpl; [constructor|].
  destruct (isWhiteSpace c) eqn:Hc; [|discriminate].
  intros H. constructor; auto.
Qed.

Lemma trimStart_head (s : jsstring) c s' :
  trimStart s = c :: s' -> isWhiteSpace c = false.
Proof.
  induction s as [|d s IH]; simpl; [discriminate|].
  destruct (isWhiteSpace d) eqn:Hd; [exact IH|].
  intros [= -> _]. exact Hd.
Qed.

(** [trim] leaves nothing exactly of the strings made of white space. *)
Lemma trim_nil_iff (s : jsstring) :
  trim s = [] <-> Forall (fun c => isWhiteSpace c = true) s.
Proof.
  split; [|apply trim_blank].
  unfold trim, trimEnd. intros H.
  apply (f_equal (@rev N)) in H. rewrite rev_involutive in H. simpl in H.
  apply trimStart_nil_blank in H.
  apply Forall_rev in H. rewrite rev_involutive in H.
  destruct (trimStart s) as [|c s'] eqn:E.
  - apply trimStart_nil_blank, E.
  - apply trimStart_head in E. inversion H; congruence.
Qed.

(** ** The coach *)

Module CoachFacts.
Import Coach.

Ltac run_handler :=
  unfold after, emitted, settled, handleSendMessage, handleRoutineAction,
    handleSendMessage_settled, handleRoutineAction_settled, onComplete,
    tryCatch, awaited, throwIfError, prop, getProp, playSegments,
    animationEffect, onMount, setLottie,
    mbind, M_bind, bind, readCoachState, setCoachState, setCurrentMessage,
    setInputValue, emit, throw, ret;
  cbn -[lit trim].

(** Outside [idle] the two entry points return at their guard. *)
Lemma handleSendMessage_guard prompt c :
  coachState c <> idle -> handleSendMessage prompt c = (Ok tt, c, []).
Proof.
  intros H. run_handler.
  destruct (isEmpty (trim prompt)), (coachState c); simpl; congruence.
Qed.

Lemma handleRoutineAction_guard t c :
  coachState c <> idle -> handleRoutineAction t c = (Ok tt, c, []).
Proof.
  intros H. run_handler. destruct (coachState c); simpl; congruence.
Qed.

Lemma handleSendMessage_blank prompt c :
  trim prompt = [] -> handleSendMessage prompt c = (Ok tt, c, []).
Proof. intros H. run_handler. rewrite H. reflexivity. Qed.

(** Either entry point does nothing, or it leaves [idle] for [thinking] and
    issues its one invocation. *)
Lemma handleSendMessage_cases prompt c :
  handleSendMessage prompt c = (Ok tt, c, [])
  \/ (coachState c = idle
      /\ coachState (after (handleSendMessage prompt) c) = thinking
      /\ emitted (handleSendMessage prompt) c = [Invoke (AiCoach prompt)]).
Proof.
  run_handler.
  destruct (isEmpty (trim prompt)), (coachState c); simpl; auto.
Qed.

Lemma handleRoutineAction_cases t c :
  handleRoutineAction t c = (Ok tt, c, [])
  \/ (coachState c = idle
      /\ coachState (after (handleRoutineAction t) c) = thinking
      /\ emitted (handleRoutineAction t) c = [Invoke (GenerateRoutine t)]).
Proof. run_handler. destruct (coachState c); simpl; auto. Qed.

(** Whatever an invocation settles with, its continuation ends in [talking]
    and issues no further invocation. *)
Lemma settled_talking i s c :
  coachState (after (settled i s) c) = talking
  /\ invocations (emitted (settled i s) c) = [].
Proof.
  destruct i as [p|t], s as [[d [e|]]|e]; run_handler; auto;
    destruct d; cbn -[lit]; auto;
    try destruct (truthy _); cbn -[lit];
    destruct (lottieMounted c); cbn -[lit]; auto.
Qed.

Lemma onComplete_quiet c :
  emitted onComplete c = []
  /\ (coachState c = thinking -> coachState (after onComplete c) = thinking).
Proof.
  run_handler. destruct (coachState c) eqn:E; simpl; split; auto; discriminate.
Qed.

Lemma run_quiet m w :
  invocations (emitted m (page w)) = [] ->
  inFlight (run m w) = inFlight w /\ page (run m w) = after m (page w).
Proof. intros H. unfold run. simpl. rewrite H, app_nil_r. auto. Qed.

Lemma run_noop m w :
  m (page w) = (Ok tt, page w, []) -> run m w = w.
Proof.
  intros H. unfold run, after, emitted. rewrite H. simpl.
  destruct w as [pg fl hs]. simpl.
  destruct (coachState pg); simpl; rewrite !app_nil_r; reflexivity.
Qed.

Lemma exclusive_entry m w i :
  exclusive w ->
  (m (page w) = (Ok tt, page w, [])
   \/ (coachState (page w) = idle
       /\ coachState (after m (page w)) = thinking
       /\ emitted m (page w) = [Invoke i])) ->
  exclusive (run m w).
Proof.
  intros Hw [Hno|(Hidle & Hth & Hem)].
  - rewrite (run_noop m w Hno). exact Hw.
  - right. unfold run. simpl. rewrite Hem. simpl. split; [exact Hth|].
    destruct Hw as [->|[Hc _]]; [eauto|congruence].
Qed.

Lemma exclusive_step w ev : exclusive w -> exclusive (step w ev).
Proof.
  intros Hw. destruct ev as [p| |t|v| |n s|]; simpl.
  - apply (exclusive_entry _ _ (AiCoach p)); [exact Hw|].
    apply handleSendMessage_cases.
  - apply (exclusive_entry _ _ (AiCoach (inputValue (page w)))); [exact Hw|].
    apply handleSendMessage_cases.
  - apply (exclusive_entry _ _ (GenerateRoutine t)); [exact Hw|].
    apply handleRoutineAction_cases.
  - destruct (run_quiet (setInputValue v) w eq_refl) as [Hf Hp].
    unfold exclusive. rewrite Hf, Hp. exact Hw.
  - assert (Hq : invocations (emitted onMount (page w)) = []).
    { run_handler. destruct (coachState (page w)); reflexivity. }
    destruct (run_quiet _ w Hq) as [Hf Hp].
    unfold exclusive. rewrite Hf, Hp.
    replace (coachState (after onMount (page w)))
      with (coachState (page w)); [exact Hw|].
    run_handler. destruct (coachState (page w)); reflexivity.
  - destruct (inFlight w !! n) as [i|] eqn:Hn; [|exact Hw].
    left.
    destruct (settled_talking i s (page w)) as [_ Hq].
    unfold run. simpl. rewrite Hq, app_nil_r.
    destruct Hw as [Hnil|(_ & j & Hj)].
    + rewrite Hnil in Hn. discriminate.
    + rewrite Hj in *. destruct n; [reflexivity|discriminate].
  - destruct (onComplete_quiet (page w)) as [Hq Hth].
    assert (Hq' : invocations (emitted onComplete (page w)) = [])
      by (rewrite Hq; reflexivity).
    destruct (run_quiet _ w Hq') as [Hf Hp].
    unfold exclusive. rewrite Hf, Hp.
    destruct Hw as [Hnil|(Hc & i & Hi)]; [left; exact Hnil|right; eauto].
Qed.

Lemma exclusive_foldl evs : forall w, exclusive w -> exclusive (foldl step w evs).
Proof.
  induction evs as [|ev evs IH]; simpl; intros w Hw; [exact Hw|].
  apply IH, exclusive_step, Hw.
Qed.

Lemma exclusive_runs evs : exclusive (runs evs).
Proof. apply exclusive_foldl. left. reflexivity. Qed.


(** The [ai-coach] continuation falls back on everything unusable. *)
Lemma ai_coach_fallback s c :
  unusable "response" s ->
  coachState (after (handleSendMessage_settled s) c) = talking
  /\ currentMessage (after (handleSendMessage_settled s) c)
     = VStr (lit "My apologies, my thoughts are unclear. Please ask again.")
  /\ emitted (handleSendMessage_settled s) c
     = [ToastError (lit "The sage's crystal ball seems cloudy.")].
Proof.
  destruct s as [[d [e|]]|e]; simpl; intros H; run_handler; auto.
  destruct H as [[? [=]]|H].
  destruct d; cbn -[lit] in *; auto; rewrite ?H; cbn -[lit]; auto; discriminate.
Qed.

(** The [generate-routine] continuation falls back on a rejection, on an
    error and on a response that cannot be read. *)
Lemma routine_failure_fallback t s c :
  match s with
  | Rejected _ => True
  | Resolved r => is_Some (error r) \/ data r = VNull \/ data r = VUndefined
  end ->
  coachState (after (handleRoutineAction_settled t s) c) = talking
  /\ currentMessage (after (handleRoutineAction_settled t s) c)
     = VStr (lit "I seem to have misplaced my quill. Could you ask again?")
  /\ exists text,
       ToastError text ∈ emitted (handleRoutineAction_settled t s) c.
Proof.
  intros H.
  assert (Hs : (exists e, s = Rejected e)
               \/ (exists d e, s = Resolved (mkResponse d (Some e)))
               \/ s = Resolved (mkResponse VNull None)
               \/ s = Resolved (mkResponse VUndefined None)).
  { destruct s as [[d [e|]]|e]; simpl in H; eauto.
    destruct H as [[? [=]]|[->| ->]]; auto. }
  destruct Hs as [[e ->]|[(d & e & ->)|[->| ->]]]; run_handler;
    destruct (lottieMounted c); cbn -[lit];
    (split; [reflexivity|split; [reflexivity|]]);
    eexists; repeat first [apply list_elem_of_here | apply list_elem_of_further].
Qed.

(** Every object the [generate-routine] invocation resolves to without
    error is taken as a success, and its [message] is adopted as it is. *)
Lemma routine_object_response_adopted t fields c :
  let k := handleRoutineAction_settled t
             (Resolved (mkResponse (VObj fields) None)) in
  coachState (after k c) = talking
  /\ currentMessage (after k c) = assoc "message" fields
  /\ TriggerRoutinesRefresh ∈ emitted k c.
Proof.
  run_handler. destruct (lottieMounted c); cbn -[lit];
    (split; [reflexivity|split; [reflexivity|]]);
    repeat first [apply list_elem_of_here | apply list_elem_of_further].
Qed.

(** C5. Whenever the coach is not [idle], [handleSendMessage] and
    [handleRoutineAction] return at their guard: the component (state,
    current message, input) is what it was and nothing is emitted, so no
    invocation is issued. Hence along every run of the page from its initial
    state at most one invocation is outstanding, and only while
    [thinking]. *)
Theorem guard_outside_idle c prompt t evs :
  coachState c <> idle ->
  handleSendMessage prompt c = (Ok tt, c, [])
  /\ handleRoutineAction t c = (Ok tt, c, [])
  /\ (List.length (inFlight (runs evs)) <= 1)%nat
  /\ (inFlight (runs evs) <> [] -> coachState (page (runs evs)) = thinking).
Proof.
  intros H. split; [|split].
  - apply handleSendMessage_guard, H.
  - apply handleRoutineAction_guard, H.
  - destruct (exclusive_runs evs) as [->|(Hth & i & ->)]; simpl.
    + split; [lia|congruence].
    + split; [lia|auto].
Qed.

Lemma guard_outside_idle_witness :
  let c := after (handleSendMessage (lit "hi")) initial in
  let evs := [Submit (lit "hi"); Click morning; Submit (lit "again")] in
  handleSendMessage (lit "hi") c = (Ok tt, c, [])
  /\ handleRoutineAction evening c = (Ok tt, c, [])
  /\ (List.length (inFlight (runs evs)) <= 1)%nat
  /\ (inFlight (runs evs) <> [] -> coachState (page (runs evs)) = thinking).
Proof.
  intros c evs.
  apply (guard_outside_idle c (lit "hi") evening evs).
  vm_compute. discriminate.
Defined.

(** C6, at the input where the code departs from it. A [generate-routine]
    invocation that resolves without error to an object with no [message]
    is taken as a success: the coach talks with an undefined message, the
    success toast is shown and the refresh is triggered; no apology is
    adopted and no failure is notified. *)
Theorem routine_empty_response_taken_as_success t c :
  let k := handleRoutineAction_settled t (Resolved (mkResponse (VObj []) None)) in
  coachState (after k c) = talking
  /\ currentMessage (after k c) = VUndefined
  /\ emitted k c
     = (if lottieMounted c then [PlaySegments TALKING false] else [])
       ++ [ToastSuccess (lit "Routine updated!")
             (lit "New habits have been added to your "
              ++ timeOfDayText t ++ lit " routine page.");
           TriggerRoutinesRefresh]
  /\ forall text, ToastError text ∉ emitted k c.
Proof.
  run_handler. destruct (lottieMounted c); cbn -[lit];
    (split; [reflexivity|split; [reflexivity|split; [reflexivity|]]]);
    intros text Hin;
    repeat (apply elem_of_cons in Hin; destruct Hin as [Hin|Hin];
            [discriminate Hin|]);
    apply not_elem_of_nil in Hin; exact Hin.
Qed.

(** C7. A [handleRoutineAction] started in [idle] enters [thinking] and
    issues the [generate-routine] invocation; when that resolves without
    error to an object whose [message] is a non-empty string, the coach is
    [talking], the message is the current message, the success toast is
    shown and [triggerRoutinesRefresh] is called. *)
Theorem routine_generated t c fields m :
  coachState c = idle ->
  assoc "message" fields = VStr m ->
  m <> [] ->
  let c1 := after (handleRoutineAction t) c in
  let k := handleRoutineAction_settled t
             (Resolved (mkResponse (VObj fields) None)) in
  coachState c1 = thinking
  /\ emitted (handleRoutineAction t) c = [Invoke (GenerateRoutine t)]
  /\ coachState (after k c1) = talking
  /\ currentMessage (after k c1) = VStr m
  /\ emitted k c1
     = (if lottieMounted c then [PlaySegments TALKING false] else [])
       ++ [ToastSuccess (lit "Routine updated!")
             (lit "New habits have been added to your "
              ++ timeOfDayText t ++ lit " routine page.");
           TriggerRoutinesRefresh].
Proof.
  intros Hidle Hm _. run_handler. rewrite Hidle, Hm. cbn -[lit].
  destruct (lottieMounted c); cbn -[lit]; auto.
Qed.

Lemma routine_generated_witness :
  let k := handleRoutineAction_settled morning
             (Resolved (mkResponse (VObj [("message", VStr (lit "Done"))]) None)) in
  let c1 := after (handleRoutineAction morning) initial in
  coachState c1 = thinking
  /\ emitted (handleRoutineAction morning) initial
     = [Invoke (GenerateRoutine morning)]
  /\ coachState (after k c1) = talking
  /\ currentMessage (after k c1) = VStr (lit "Done")
  /\ emitted k c1
     = [ToastSuccess (lit "Routine updated!")
          (lit "New habits have been added to your morning routine page.");
        TriggerRoutinesRefresh].
Proof.
  apply (routine_generated morning initial
           [("message", VStr (lit "Done"))] (lit "Done"));
    [reflexivity|reflexivity|discriminate].
Defined.

(** C8. When the coach is [talking] and the animation signals completion,
    [onComplete] moves it to [idle]; the current message and the input stay,
    and nothing is emitted. *)
Theorem playback_completion c :
  coachState c = talking ->
  after onComplete c
  = mkComponent idle (currentMessage c) (inputValue c) (lottieMounted c)
  /\ emitted onComplete c = [].
Proof. intros H. run_handler. rewrite H. auto. Qed.

Lemma playback_completion_witness :
  let c := mkComponent talking (VStr (lit "Breathe.")) [] true in
  after onComplete c = mkComponent idle (VStr (lit "Breathe.")) [] true
  /\ emitted onComplete c = [].
Proof.
  apply (playback_completion (mkComponent talking (VStr (lit "Breathe.")) [] true)).
  reflexivity.
Defined.

(** C10. A prompt that is empty or made of white space only is dropped by
    [handleSendMessage] in every state, [idle] included: the component
    (state, current message, input value) is what it was, nothing is
    emitted, and a session is left exactly as it was by such a submit. *)
Theorem blank_prompt_ignored prompt c w :
  Forall (fun ch => isWhiteSpace ch = true) prompt ->
  handleSendMessage prompt c = (Ok tt, c, [])
  /\ step w (Submit prompt) = w.
Proof.
  intros H. apply trim_blank in H. split.
  - apply handleSendMessage_blank, H.
  - simpl. apply run_noop, handleSendMessage_blank, H.
Qed.

Lemma blank_prompt_ignored_witness :
  handleSendMessage [32; 9; 160; 10] initial = (Ok tt, initial, [])
  /\ step start (Submit [32; 9; 160; 10]) = start.
Proof.
  apply (blank_prompt_ignored [32; 9; 160; 10] initial start).
  repeat constructor.
Defined.

End CoachFacts.

(** ** [find] on arrays *)

Section Find.
Context {A : Type} (P : A -> Prop) `{forall x, Decision (P x)}.

Lemma find_nil : find P [] = None.
Proof. reflexivity. Qed.

Lemma find_cons x l :
  find P (x :: l) = if decide (P x) then Some x else find P l.
Proof.
  unfold find. simpl. destruct (decide (P x)); [reflexivity|].
  destruct (list_find P l) as [[i y]|]; reflexivity.
Qed.

Lemma find_None l : find P l = None <-> Forall (fun x => ~ P x) l.
Proof.
  unfold find. rewrite fmap_None. apply list_find_None.
Qed.

Lemma find_Some_holds l x : find P l = Some x -> P x /\ x ∈ l.
Proof.
  induction l as [|y l IH]; [discriminate|].
  rewrite find_cons. destruct (decide (P y)) as [Hy|Hy].
  - intros [= ->]. split; [exact Hy|apply list_elem_of_here].
  - intros Hx. destruct (IH Hx). split; [assumption|].
    apply list_elem_of_further. assumption.
Qed.

Lemma find_app_None l x :
  find P l = None -> P x -> find P (l ++ [x]) = Some x.
Proof.
  induction l as [|y l IH]; simpl; intros Hl Hx.
  - rewrite find_cons. destruct (decide (P x)); [reflexivity|contradiction].
  - rewrite find_cons in Hl |- *. destruct (decide (P y)); [discriminate|].
    apply IH; assumption.
Qed.

Lemma find_replace l x :
  is_Some (find P l) -> P x ->
  find P ((fun y => if decide (P y) then x else y) <$> l) = Some x.
Proof.
  induction l as [|y l IH]; intros Hl Hx.
  - destruct Hl as [? [=]].
  - rewrite fmap_cons, find_cons. rewrite find_cons in Hl.
    destruct (decide (P y)) as [Hy|Hy].
    + destruct (decide (P x)); [reflexivity|contradiction].
    + destruct (decide (P y)); [contradiction|]. apply IH; assumption.
Qed.

Lemma filter_without l x :
  find P l = None -> P x -> filter (fun y => ~ P y) (l ++ [x]) = l.
Proof.
  induction l as [|y l IH]; simpl; intros Hl Hx.
  - rewrite filter_cons_False; [reflexivity|]. intros Hn. exact (Hn Hx).
  - rewrite find_cons in Hl. destruct (decide (P y)) as [|Hy]; [discriminate|].
    rewrite filter_cons_True by exact Hy. f_equal. apply IH; assumption.
Qed.
End Find.

(** ** The data store *)

Module DataStoreFacts.
Import api DataStore.

Lemma logFor_writeLog l logs :
  logFor (habit_id l) (date l) (writeLog l logs) = Some l.
Proof.
  unfold writeLog, logFor.
  destruct (find (sameEntry (habit_id l) (date l)) logs) as [old|] eqn:E.
  - apply find_replace; [rewrite E; eauto|]. split; reflexivity.
  - apply find_app_None; [exact E|]. split; reflexivity.
Qed.

Lemma withLogs_same c : withLogs (habitLogs c) c = c.
Proof. destruct c; reflexivity. Qed.

(** A failed toggle of an entry that existed puts the entry back. *)
Lemma toggle_rollback_existing s h b today e old :
  logFor h today (habitLogs (cache s)) = Some old ->
  let s1 := (toggleHabit h b today s).1 in
  let k := (toggleHabit h b today s).2 in
  logFor h today (habitLogs (cache (toggleSettled k (Failed e) s1))) = Some old.
Proof.
  intros Hold. simpl.
  rewrite lookup_insert_eq, decide_True by reflexivity.
  rewrite Hold. simpl.
  destruct (find_Some_holds _ _ _ Hold) as [[<- <-] _].
  apply logFor_writeLog.
Qed.

(** A response to a toggle that a later toggle of the habit has overtaken
    leaves the cache as it is, whatever the response. *)
Lemma stale_response_ignored h a b today o s :
  let s1 := (toggleHabit h a today s).1 in
  let k1 := (toggleHabit h a today s).2 in
  let s2 := (toggleHabit h b today s1).1 in
  cache (toggleSettled k1 o s2) = cache s2.
Proof.
  destruct o as [[]|e]; [reflexivity|]. simpl.
  rewrite !lookup_insert_eq. simpl.
  destruct (decide _) as [Heq|]; [|reflexivity].
  injection Heq as Heq. lia.
Qed.

(** When the later of two toggles fails while it is the latest, the entry
    goes back to what the earlier toggle wrote. *)
Lemma later_failure_reverts s h today e :
  let s1 := (toggleHabit h true today s).1 in
  let s2 := (toggleHabit h false today s1).1 in
  let k2 := (toggleHabit h false today s1).2 in
  logFor h today (habitLogs (cache (toggleSettled k2 (Failed e) s2)))
  = Some (mkHabitLog h today true).
Proof.
  cbn zeta. apply toggle_rollback_existing.
  apply (logFor_writeLog (mkHabitLog h today true)).
Qed.

(** C1. When a second [fetchRoutinesAndHabits()] is called while the first
    is outstanding, one [fetchAll] has been sent for the two, the two
    callers hold the same promise, and once the call settles both observe
    its one outcome; on success that outcome is the cache the store now
    holds. *)
Theorem single_flight s o :
  fetchInFlight s = None ->
  let s1 := (fetchRoutinesAndHabits s).1 in
  let p1 := (fetchRoutinesAndHabits s).2 in
  let s2 := (fetchRoutinesAndHabits s1).1 in
  let p2 := (fetchRoutinesAndHabits s1).2 in
  let s3 := fetchSettled o s2 in
  calls s1 = calls s ++ [fetchAll]
  /\ calls s2 = calls s1
  /\ calls s3 = calls s1
  /\ p1 = p2
  /\ observed p1 s3 = observed p2 s3
  /\ match o with
     | Success _ => observed p1 s3 = Some (Success (cache s3))
     | Failed e => observed p1 s3 = Some (Failed e)
                   /\ habitLogs (cache s3) = habitLogs (cache s)
                   /\ habits (cache s3) = habits (cache s)
                   /\ routines (cache s3) = routines (cache s)
     end
  /\ fetchInFlight s3 = None
  /\ isLoadingRoutines (cache s3) = false.
Proof.
  intros H. unfold fetchRoutinesAndHabits. rewrite H. simpl.
  unfold observed. destruct o as [d|e]; simpl; rewrite lookup_insert_eq;
    repeat split; reflexivity.
Qed.

Lemma single_flight_witness :
  let s1 := (fetchRoutinesAndHabits empty).1 in
  let p1 := (fetchRoutinesAndHabits empty).2 in
  let s2 := (fetchRoutinesAndHabits s1).1 in
  let p2 := (fetchRoutinesAndHabits s1).2 in
  let s3 := fetchSettled (Success (mkFetched [mkRoutine 1 (lit "Dawn") morning] [] [])) s2 in
  calls s1 = [fetchAll]
  /\ calls s2 = calls s1
  /\ calls s3 = calls s1
  /\ p1 = p2
  /\ observed p1 s3 = observed p2 s3
  /\ observed p1 s3 = Some (Success (cache s3))
  /\ fetchInFlight s3 = None
  /\ isLoadingRoutines (cache s3) = false.
Proof.
  apply (single_flight empty
           (Success (mkFetched [mkRoutine 1 (lit "Dawn") morning] [] []))).
  reflexivity.
Defined.

(** C2. For a habit with no log for today, [toggleHabit(h, true)] writes
    the log [{h, today, true}] into the cache before its network call
    settles and sends [setHabitCompletion]; if the call fails the cache is
    again the one before the toggle (the entry is removed) and the failure
    is surfaced; if it succeeds the store is left as the toggle made it. *)
Theorem toggle_optimistic_rollback s h today e :
  logFor h today (habitLogs (cache s)) = None ->
  let s1 := (toggleHabit h true today s).1 in
  let k := (toggleHabit h true today s).2 in
  logFor h today (habitLogs (cache s1)) = Some (mkHabitLog h today true)
  /\ calls s1 = calls s ++ [setHabitCompletion h today true]
  /\ cache (toggleSettled k (Failed e) s1) = cache s
  /\ logFor h today (habitLogs (cache (toggleSettled k (Failed e) s1))) = None
  /\ surfaced (toggleSettled k (Failed e) s1) = surfaced s ++ [e]
  /\ toggleSettled k (Success tt) s1 = s1.
Proof.
  intros Hnone. cbn zeta.
  assert (Hrev : cache (toggleSettled (toggleHabit h true today s).2 (Failed e)
                          (toggleHabit h true today s).1) = cache s).
  { simpl. rewrite lookup_insert_eq, decide_True by reflexivity.
    unfold writeLog. simpl. rewrite !Hnone. simpl.
    unfold logFor in Hnone.
    unfold withLogs. simpl.
    rewrite (filter_without (sameEntry h today)); [|exact Hnone|split; reflexivity].
    destruct (cache s); reflexivity. }
  split; [|split; [|split; [|split; [|split]]]].
  - apply (logFor_writeLog (mkHabitLog h today true)).
  - reflexivity.
  - exact Hrev.
  - rewrite Hrev. exact Hnone.
  - reflexivity.
  - reflexivity.
Qed.

Lemma toggle_optimistic_rollback_witness :
  let s := withCache (mkCache [mkRoutine 1 (lit "Dawn") morning]
                        [mkHabit 7 (lit "Stretch") 1]
                        [mkHabitLog 7 (lit "2024-01-01") true] false) empty in
  let today := lit "2024-01-02" in
  let s1 := (toggleHabit 7 true today s).1 in
  let k := (toggleHabit 7 true today s).2 in
  logFor 7 today (habitLogs (cache s1)) = Some (mkHabitLog 7 today true)
  /\ calls s1 = calls s ++ [setHabitCompletion 7 today true]
  /\ cache (toggleSettled k (Failed NetworkError) s1) = cache s
  /\ logFor 7 today (habitLogs (cache (toggleSettled k (Failed NetworkError) s1))) = None
  /\ surfaced (toggleSettled k (Failed NetworkError) s1) = surfaced s ++ [NetworkError]
  /\ toggleSettled k (Success tt) s1 = s1.
Proof.
  intros s today.
  apply (toggle_optimistic_rollback s 7 today NetworkError).
  vm_compute. reflexivity.
Defined.

(** C3. When [toggleHabit(h, true)] and then [toggleHabit(h, false)] are
    issued before either network call settles, the log for [(h, today)]
    ends at [completed = false] in both orders of arrival of the two
    responses, whatever the earlier call's response is (the later call
    succeeding); and the earlier call's response, whatever it is, leaves the
    cache as the later toggle wrote it. *)
Theorem stale_response_ordering s h today o1 (earlierFirst : bool) :
  let s1 := (toggleHabit h true today s).1 in
  let k1 := (toggleHabit h true today s).2 in
  let s2 := (toggleHabit h false today s1).1 in
  let k2 := (toggleHabit h false today s1).2 in
  let final :=
    if earlierFirst
    then toggleSettled k2 (Success tt) (toggleSettled k1 o1 s2)
    else toggleSettled k1 o1 (toggleSettled k2 (Success tt) s2) in
  logFor h today (habitLogs (cache final)) = Some (mkHabitLog h today false)
  /\ cache (toggleSettled k1 o1 s2) = cache s2
  /\ cache final = cache s2.
Proof.
  cbn zeta.
  pose proof (stale_response_ignored h true false today o1 s) as Hstale.
  cbn zeta in Hstale.
  assert (Hfinal :
    cache (if earlierFirst
           then toggleSettled (toggleHabit h false today (toggleHabit h true today s).1).2
                  (Success tt)
                  (toggleSettled (toggleHabit h true today s).2 o1
                     (toggleHabit h false today (toggleHabit h true today s).1).1)
           else toggleSettled (toggleHabit h true today s).2 o1
                  (toggleSettled (toggleHabit h false today (toggleHabit h true today s).1).2
                     (Success tt)
                     (toggleHabit h false today (toggleHabit h true today s).1).1))
    = cache (toggleHabit h false today (toggleHabit h true today s).1).1).
  { destruct earlierFirst; exact Hstale. }
  split; [|split; [exact Hstale|exact Hfinal]].
  rewrite Hfinal. apply (logFor_writeLog (mkHabitLog h today false)).
Qed.

(** C4. [deleteRoutine(r)] changes nothing in the cache while its call is
    outstanding. On success the cache holds exactly the routines other than
    [r], the habits of other routines, and the logs of habits that were not
    habits of [r]; on failure the cache is the one before the call. *)
Theorem cascade_delete s r e :
  let s1 := deleteRoutine r s in
  let ok := cache (deleteRoutineSettled r (Success tt) s1) in
  cache s1 = cache s
  /\ calls s1 = calls s ++ [deleteRoutineCall r]
  /\ (forall x, x ∈ routines ok <-> x ∈ routines (cache s) /\ id x <> r)
  /\ (forall h, h ∈ habits ok <-> h ∈ habits (cache s) /\ routine_id h <> r)
  /\ (forall l, l ∈ habitLogs ok <->
                l ∈ habitLogs (cache s)
                /\ ~ exists h, h ∈ habits (cache s) /\ routine_id h = r
                               /\ habit_id_of h = habit_id l)
  /\ cache (deleteRoutineSettled r (Failed e) s1) = cache s.
Proof.
  cbn zeta. simpl.
  split; [reflexivity|]. split; [reflexivity|].
  split; [|split; [|split; [|reflexivity]]].
  - intros x. rewrite list_elem_of_filter. tauto.
  - intros h. rewrite list_elem_of_filter. tauto.
  - intros l. rewrite list_elem_of_filter. unfold habitsOf.
    rewrite list_elem_of_fmap.
    split.
    + intros [H1 H2]. split; [assumption|].
      intros (h & Hh & Hr & Hid). apply H1. exists h.
      rewrite list_elem_of_filter. auto.
    + intros [H1 H2]. split; [|assumption].
      intros (h & Hid & Hh). apply list_elem_of_filter in Hh as [Hr Hh].
      apply H2. exists h. auto.
Qed.

End DataStoreFacts.

(** ** The routines page *)

Module RoutinesPageFacts.
Import api DataStore RoutinesPage.

(** C9. After a fetch that succeeds with no morning routine or no evening
    routine, the page renders its fallback message (it renders: the
    component returns a view for every snapshot); a later fetch that brings
    both routines makes it render the two tomes. *)
Theorem missing_routine_fallback s d d' m e :
  find (fun r => time_of_day r = morning) (fetched_routines d) = None
  \/ find (fun r => time_of_day r = evening) (fetched_routines d) = None ->
  find (fun r => time_of_day r = morning) (fetched_routines d') = Some m ->
  find (fun r => time_of_day r = evening) (fetched_routines d') = Some e ->
  let s1 := fetchSettled (Success d) (fetchRoutinesAndHabits s).1 in
  let s2 := fetchSettled (Success d') (fetchRoutinesAndHabits s1).1 in
  render (cache s1)
  = Fallback "The ancient tomes could not be found. Please try refreshing the page."
  /\ render (cache s2)
     = Rituals [renderRoutineCard (cache s2) m "0s";
                renderRoutineCard (cache s2) e "0.2s"].
Proof.
  intros Hd Hm He. cbn zeta.
  assert (Hc : forall s0 d0,
    cache (fetchSettled (Success d0) (fetchRoutinesAndHabits s0).1)
    = mkCache (fetched_routines d0) (fetched_habits d0) (fetched_habitLogs d0) false).
  { intros s0 d0. unfold fetchRoutinesAndHabits.
    destruct (fetchInFlight s0) as [p|] eqn:E; simpl.
    - unfold fetchSettled. rewrite E. reflexivity.
    - reflexivity. }
  rewrite !Hc. unfold render. simpl. rewrite Hm, He. split; [|reflexivity].
  destruct Hd as [-> | ->]; [reflexivity|].
  destruct (find _ (fetched_routines d)); reflexivity.
Qed.

Lemma missing_routine_fallback_witness :
  let dawn := mkRoutine 1 (lit "Dawn") morning in
  let dusk := mkRoutine 2 (lit "Dusk") evening in
  let s1 := fetchSettled (Success (mkFetched [dawn] [] []))
              (fetchRoutinesAndHabits empty).1 in
  let s2 := fetchSettled (Success (mkFetched [dawn; dusk] [] []))
              (fetchRoutinesAndHabits s1).1 in
  render (cache s1)
  = Fallback "The ancient tomes could not be found. Please try refreshing the page."
  /\ render (cache s2)
     = Rituals [renderRoutineCard (cache s2) dawn "0s";
                renderRoutineCard (cache s2) dusk "0.2s"].
Proof.
  intros dawn dusk.
  apply (missing_routine_fallback empty (mkFetched [dawn] [] [])
           (mkFetched [dawn; dusk] [] []) dawn dusk);
    [right; reflexivity|reflexivity|reflexivity].
Defined.

End RoutinesPageFacts.

(** ** More on the coach page *)

Module CoachPageFacts.
Import Coach CoachView.

Ltac run_handler := CoachFacts.run_handler.

Lemma existsb_visible_false (s : jsstring) :
  existsb (fun ch => negb (isWhiteSpace ch)) s = false
  <-> Forall (fun ch => isWhiteSpace ch = true) s.
Proof.
  induction s as [|c s IH]; simpl.
  - split; [constructor|reflexivity].
  - rewrite orb_false_iff, IH, negb_false_iff. split.
    + intros [Hc Hs]. constructor; assumption.
    + intros H. inversion H; auto.
Qed.

Lemma isEmpty_trim (s : jsstring) :
  isEmpty (trim s) = negb (existsb (fun ch => negb (isWhiteSpace ch)) s).
Proof.
  destruct (existsb _ s) eqn:E; simpl.
  - destruct (trim s) eqn:T; [|reflexivity].
    apply trim_nil_iff, existsb_visible_false in T. congruence.
  - apply existsb_visible_false, trim_nil_iff in E. rewrite E. reflexivity.
Qed.

(** X1. [handleSendMessage] acts exactly when the coach is [idle] and the
    prompt has a character that is not white space; it then enters
    [thinking] with the pondering message, clears the input and sends the
    prompt as it was typed (untrimmed). In every other case it does
    nothing. *)
Theorem send_acts_exactly_when prompt c :
  handleSendMessage prompt c
  = if (CoachState_eqb (coachState c) idle
        && existsb (fun ch => negb (isWhiteSpace ch)) prompt)%bool
    then (Ok tt,
          mkComponent thinking
            (VStr (lit "Let me ponder on that for a moment..."))
            [] (lottieMounted c),
          [Invoke (AiCoach prompt)])
    else (Ok tt, c, []).
Proof.
  run_handler. rewrite isEmpty_trim.
  destruct (existsb _ prompt), (coachState c); reflexivity.
Qed.

(** X2. The [ai-coach] continuation has two outcomes only. With nothing
    usable (rejection, error, missing or falsy [response], unreadable data)
    it talks the apology and shows one failure toast. Otherwise it talks the
    [response] it got, with no toast at all. In neither case does it ask for
    a routines refresh. *)
Theorem ai_coach_outcomes s c :
  let k := handleSendMessage_settled s in
  coachState (after k c) = talking
  /\ inputValue (after k c) = inputValue c
  /\ (TriggerRoutinesRefresh ∉ emitted k c)
  /\ ((unusable "response" s
       /\ currentMessage (after k c)
          = VStr (lit "My apologies, my thoughts are unclear. Please ask again.")
       /\ emitted k c = [ToastError (lit "The sage's crystal ball seems cloudy.")])
      \/ (exists d v,
            s = Resolved (mkResponse d None)
            /\ getProp d "response" = inr v /\ truthy v = true
            /\ currentMessage (after k c) = v
            /\ emitted k c
               = if lottieMounted c then [PlaySegments TALKING false] else [])).
Proof.
  assert (Hno : forall l : list Effect,
            (l = [ToastError (lit "The sage's crystal ball seems cloudy.")]
             \/ l = [PlaySegments TALKING false] \/ l = []) ->
            TriggerRoutinesRefresh ∉ l).
  { intros l [-> | [-> | ->]] Hin;
      repeat (apply elem_of_cons in Hin; destruct Hin as [Hin|Hin];
              [discriminate Hin|]);
      apply elem_of_nil in Hin; exact Hin. }
  destruct s as [[d [e|]]|e]; cbn zeta.
  - run_handler. repeat split; auto; try (left; repeat split; simpl; eauto).
  - destruct (getProp d "response") as [te|v] eqn:G.
    + run_handler. unfold getProp in G. destruct d; try discriminate G;
        cbn -[lit]; (repeat split; auto); left; simpl; auto.
    + destruct (truthy v) eqn:T.
      * assert (Hd : handleSendMessage_settled (Resolved (mkResponse d None)) c
                     = (Ok tt,
                        mkComponent talking v (inputValue c) (lottieMounted c),
                        if lottieMounted c then [PlaySegments TALKING false] else [])).
        { run_handler. unfold getProp in G.
          destruct d; try discriminate G; injection G as <-;
            cbn -[lit] in T |- *; try discriminate T; rewrite ?T;
            destruct (lottieMounted c); reflexivity. }
        unfold after, emitted. rewrite Hd. cbn -[lit].
        split; [reflexivity|]. split; [reflexivity|]. split.
        { apply Hno. destruct (lottieMounted c); auto. }
        right. exists d, v. auto.
      * assert (Hu : unusable "response" (Resolved (mkResponse d None))).
        { right. simpl. rewrite G. exact T. }
        destruct (CoachFacts.ai_coach_fallback _ c Hu) as (H1 & H2 & H3).
        split; [exact H1|]. split.
        { run_handler. unfold getProp in G.
          destruct d; try discriminate G; injection G as <-;
            cbn -[lit] in T |- *; rewrite ?T; reflexivity. }
        split; [rewrite H3; apply Hno; auto|]. left. auto.
  - run_handler. repeat split; auto; try (left; repeat split; simpl; eauto).
Qed.

(** X3. When the [generate-routine] invocation is rejected, or resolves with
    an error (whatever data comes with it), the coach talks the quill
    apology and shows one failure toast: the error's own message when it has
    a non-empty one, "Failed to generate <timeOfDay> routine." otherwise.
    The talking segment is not played and no refresh is asked for. *)
Theorem routine_failure_toast t e d c :
  let shown :=
    match message e with
    | None | Some [] =>
        lit "Failed to generate " ++ timeOfDayText t ++ lit " routine."
    | Some m => m
    end in
  let result :=
    (Ok tt,
     mkComponent talking
       (VStr (lit "I seem to have misplaced my quill. Could you ask again?"))
       (inputValue c) (lottieMounted c),
     [ToastError shown]) in
  handleRoutineAction_settled t (Rejected e) c = result
  /\ handleRoutineAction_settled t (Resolved (mkResponse d (Some e))) c = result.
Proof.
  run_handler. unfold messageOr.
  destruct (message e) as [[|ch m]|]; auto.
Qed.

(** X4. While the coach is [thinking], nothing but the settling of the
    outstanding invocation moves it: a submit, a button click, typing, the
    animation mounting or completing, and a settle that names no outstanding
    invocation all leave the state, the current message and the outstanding
    invocations as they are. *)
Theorem thinking_waits_for_settle w ev :
  coachState (page w) = thinking ->
  match ev with
  | Settle n _ => inFlight w !! n = None
  | _ => True
  end ->
  coachState (page (step w ev)) = thinking
  /\ currentMessage (page (step w ev)) = currentMessage (page w)
  /\ inFlight (step w ev) = inFlight w.
Proof.
  intros Hth Hev.
  assert (Hne : coachState (page w) <> idle) by congruence.
  destruct ev as [p| |t|v| |n s|]; cbn [step].
  - rewrite (CoachFacts.run_noop _ w (CoachFacts.handleSendMessage_guard p _ Hne)).
    auto.
  - rewrite (CoachFacts.run_noop _ w
               (CoachFacts.handleSendMessage_guard (inputValue (page w)) _ Hne)).
    auto.
  - rewrite (CoachFacts.run_noop _ w (CoachFacts.handleRoutineAction_guard t _ Hne)).
    auto.
  - unfold run. simpl. rewrite app_nil_r. auto.
  - unfold run. run_handler. rewrite Hth. simpl. rewrite app_nil_r. auto.
  - rewrite Hev. auto.
  - unfold run. run_handler. rewrite Hth. simpl. rewrite app_nil_r. auto.
Qed.

Lemma thinking_waits_for_settle_witness :
  let w := step start (Submit (lit "hi")) in
  coachState (page (step w Complete)) = thinking
  /\ currentMessage (page (step w Complete)) = currentMessage (page w)
  /\ inFlight (step w Complete) = inFlight w.
Proof.
  intros w.
  apply (thinking_waits_for_settle w Complete); [reflexivity|exact I].
Defined.


(** The [ai-coach] continuation always leaves something to say. *)
Lemma ai_coach_says_something s c :
  coachState (after (handleSendMessage_settled s) c) = talking
  /\ truthy (currentMessage (after (handleSendMessage_settled s) c)) = true.
Proof.
  destruct s as [[d [e|]]|e]; run_handler; auto.
  destruct d; cbn -[lit]; auto.
  destruct (truthy (assoc "response" fields)) eqn:T; cbn -[lit]; auto.
Qed.

Lemma settled_quiet i s c :
  inputValue (after (settled i s) c) = inputValue c
  /\ lottieMounted (after (settled i s) c) = lottieMounted c.
Proof.
  destruct i as [p|t], s as [[d [e|]]|e]; run_handler; auto;
    destruct d; cbn -[lit]; auto;
    try destruct (truthy _); cbn -[lit]; auto.
Qed.

Lemma complete_from_talking w :
  coachState (page w) = talking ->
  coachState (page (step w Complete)) = idle
  /\ inFlight (step w Complete) = inFlight w
  /\ currentMessage (page (step w Complete)) = currentMessage (page w).
Proof.
  intros Ht. cbn [step]. unfold run. run_handler. rewrite Ht. simpl.
  rewrite app_nil_r. auto.
Qed.

(** X5. A conversation comes back to [idle]. From [idle] with nothing
    outstanding, a submit of a prompt that is not blank (or a click on a
    routine button) puts the coach in [thinking] with that one invocation
    outstanding; whatever the invocation settles with, the coach is then
    [talking] with nothing outstanding; and the animation's completion puts
    it back in [idle] with the message it was talking. *)
Theorem conversation_returns_to_idle w prompt t s :
  coachState (page w) = idle ->
  inFlight w = [] ->
  trim prompt <> [] ->
  forall ev i,
    (ev = Submit prompt /\ i = AiCoach prompt)
    \/ (ev = Click t /\ i = GenerateRoutine t) ->
    let w1 := step w ev in
    let w2 := step w1 (Settle 0 s) in
    let w3 := step w2 Complete in
    coachState (page w1) = thinking
    /\ inFlight w1 = [i]
    /\ coachState (page w2) = talking
    /\ inFlight w2 = []
    /\ coachState (page w3) = idle
    /\ inFlight w3 = []
    /\ currentMessage (page w3) = currentMessage (page w2).
Proof.
  intros Hidle Hfl Hp ev i Hev. cbn zeta.
  assert (H1 : coachState (page (step w ev)) = thinking
               /\ inFlight (step w ev) = [i]).
  { destruct Hev as [[-> ->]|[-> ->]]; cbn [step]; unfold run; simpl; rewrite Hfl.
    - destruct (CoachFacts.handleSendMessage_cases prompt (page w))
        as [Hno|(_ & Hth & Hem)].
      + exfalso. revert Hno. run_handler. rewrite Hidle.
        destruct (trim prompt); [congruence|]. simpl. discriminate.
      + rewrite Hem. auto.
    - destruct (CoachFacts.handleRoutineAction_cases t (page w))
        as [Hno|(_ & Hth & Hem)].
      + exfalso. revert Hno. run_handler. rewrite Hidle. simpl. discriminate.
      + rewrite Hem. auto. }
  destruct H1 as [Hth1 Hfl1].
  set (w1 := step w ev) in *.
  assert (H2 : coachState (page (step w1 (Settle 0 s))) = talking
               /\ inFlight (step w1 (Settle 0 s)) = []).
  { cbn [step]. rewrite Hfl1. simpl.
    destruct (CoachFacts.settled_talking i s (page w1)) as [Ht Hq].
    unfold run. simpl. rewrite Hq. auto. }
  destruct H2 as [Ht2 Hfl2].
  destruct (complete_from_talking _ Ht2) as (Hi3 & Hfl3 & Hm3).
  rewrite Hfl2 in Hfl3. auto 10.
Qed.

Lemma conversation_returns_to_idle_witness :
  let w1 := step start (Submit (lit "hi")) in
  let w2 := step w1 (Settle 0 (Rejected (mkError None))) in
  let w3 := step w2 Complete in
  coachState (page w1) = thinking
  /\ inFlight w1 = [AiCoach (lit "hi")]
  /\ coachState (page w2) = talking
  /\ inFlight w2 = []
  /\ coachState (page w3) = idle
  /\ inFlight w3 = []
  /\ currentMessage (page w3) = currentMessage (page w2).
Proof.
  apply (conversation_returns_to_idle start (lit "hi") morning
           (Rejected (mkError None)) eq_refl eq_refl);
    [vm_compute; discriminate|left; split; reflexivity].
Defined.

Lemma tight_entry m w i :
  tight w ->
  (m (page w) = (Ok tt, page w, [])
   \/ (coachState (page w) = idle
       /\ coachState (after m (page w)) = thinking
       /\ emitted m (page w) = [Invoke i])) ->
  tight (run m w).
Proof.
  intros Hw [Hno|(Hidle & Hth & Hem)].
  - rewrite (CoachFacts.run_noop m w Hno). exact Hw.
  - left. unfold run. simpl. rewrite Hem. simpl. split; [exact Hth|].
    destruct Hw as [[Hc _]|[_ ->]]; [congruence|eauto].
Qed.

Lemma tight_step w ev : tight w -> tight (step w ev).
Proof.
  intros Hw. destruct ev as [p| |t|v| |n s|]; cbn [step].
  - apply (tight_entry _ _ (AiCoach p)); [exact Hw|].
    apply CoachFacts.handleSendMessage_cases.
  - apply (tight_entry _ _ (AiCoach (inputValue (page w)))); [exact Hw|].
    apply CoachFacts.handleSendMessage_cases.
  - apply (tight_entry _ _ (GenerateRoutine t)); [exact Hw|].
    apply CoachFacts.handleRoutineAction_cases.
  - unfold tight, run. simpl. rewrite app_nil_r. exact Hw.
  - unfold tight, run in *. run_handler.
    destruct (coachState (page w)); simpl; rewrite app_nil_r; exact Hw.
  - destruct (inFlight w !! n) as [i|] eqn:Hn; [|exact Hw].
    right.
    destruct (CoachFacts.settled_talking i s (page w)) as [Ht Hq].
    unfold run. cbn [page inFlight history]. rewrite Hq, app_nil_r.
    split; [rewrite Ht; discriminate|].
    destruct Hw as [(_ & j & Hj)|[_ Hnil]].
    + rewrite Hj in *. destruct n; [reflexivity|discriminate].
    + rewrite Hnil in Hn. discriminate.
  - unfold tight, run in *. run_handler.
    destruct (coachState (page w)) eqn:E; simpl; rewrite app_nil_r;
      rewrite ?E; try exact Hw.
    right. split; [discriminate|].
    destruct Hw as [[Hc _]|[_ Hnil]]; [discriminate|exact Hnil].
Qed.

Lemma tight_foldl evs : forall w, tight w -> tight (foldl step w evs).
Proof.
  induction evs as [|ev evs IH]; simpl; intros w Hw; [exact Hw|].
  apply IH, tight_step, Hw.
Qed.

(** X6. Along every run of the page from its initial state, the coach is
    [thinking] exactly when an invocation is outstanding, and then exactly
    one is: it never waits for nothing, and no invocation is outstanding
    while it is [idle] or [talking]. *)
Theorem thinking_iff_outstanding evs :
  (coachState (page (runs evs)) = thinking <-> inFlight (runs evs) <> [])
  /\ (coachState (page (runs evs)) = thinking <->
      exists i, inFlight (runs evs) = [i]).
Proof.
  assert (H : tight (runs evs)).
  { apply tight_foldl. right. split; [discriminate|reflexivity]. }
  destruct H as [(Hc & i & Hi)|[Hc Hnil]]; rewrite ?Hi, ?Hnil.
  - split; split; intros _; eauto; discriminate.
  - split; split; intros H;
      first [contradiction | exfalso; apply H; reflexivity
            | destruct H as [i [=]]].
Qed.

(** X7. With the animation mounted, the effect hook on the state answers
    every settling of an invocation by starting the idle loop: what the page
    emits then is what the continuation emits (the talking segment included,
    when the invocation brought something to say) followed by the forced
    idle loop. The hook itself never plays the talking segment, and it does
    nothing while the animation is not mounted. *)
Theorem idle_loop_follows_talking w n i s :
  coachState (page w) = thinking ->
  inFlight w !! n = Some i ->
  (forall c forceFlag, PlaySegments TALKING forceFlag ∉ emitted animationEffect c)
  /\ history (step w (Settle n s))
     = history w ++ emitted (settled i s) (page w)
       ++ (if lottieMounted (page w) then [PlaySegments IDLE_LOOP true] else []).
Proof.
  intros Hth Hn. split.
  - intros c f Hin. revert Hin. run_handler.
    destruct (lottieMounted c), (coachState c); cbn; intros Hin;
      repeat (apply elem_of_cons in Hin; destruct Hin as [Hin|Hin];
              [discriminate Hin|]);
      apply elem_of_nil in Hin; exact Hin.
  - cbn [step]. rewrite Hn. unfold run. cbn [page history inFlight].
    destruct (CoachFacts.settled_talking i s (page w)) as [Ht _].
    destruct (settled_quiet i s (page w)) as [_ Hm].
    rewrite Ht, Hth. cbn [CoachState_eqb].
    do 2 f_equal.
    assert (Hhook : forall c, coachState c = talking ->
              emitted animationEffect c
              = if lottieMounted c then [PlaySegments IDLE_LOOP true] else []).
    { intros c Hc. unfold emitted, animationEffect. rewrite Hc.
      destruct (lottieMounted c); reflexivity. }
    rewrite (Hhook _ Ht), Hm. reflexivity.
Qed.

Lemma idle_loop_follows_talking_witness :
  let w := step (step start Mounted) (Click evening) in
  let s := Resolved (mkResponse (VObj [("message", VStr (lit "Rest."))]) None) in
  (forall c forceFlag, PlaySegments TALKING forceFlag ∉ emitted animationEffect c)
  /\ history (step w (Settle 0 s))
     = history w ++ emitted (settled (GenerateRoutine evening) s) (page w)
       ++ [PlaySegments IDLE_LOOP true].
Proof.
  intros w s.
  apply (idle_loop_follows_talking w 0%nat (GenerateRoutine evening) s);
    reflexivity.
Defined.

(** X8. The controls the page renders agree with the guards of its
    handlers: the send button is disabled exactly when submitting the form
    would do nothing, and each routine button exactly when its click would
    do nothing; the input is disabled exactly outside [idle]. *)
Theorem controls_agree_with_guards c :
  (sendDisabled (render c) = true
   <-> handleSendMessage (inputValue c) c = (Ok tt, c, []))
  /\ (forall b, b ∈ routineButtons (render c) ->
        (buttonDisabled b = true
         <-> handleRoutineAction (suggests b) c = (Ok tt, c, [])))
  /\ (inputDisabled (render c) = true <-> coachState c <> idle).
Proof.
  split; [|split].
  - run_handler. destruct (coachState c), (isEmpty (trim (inputValue c)));
      simpl; split; intros H; try reflexivity; discriminate H.
  - intros b Hb. simpl in Hb.
    apply elem_of_cons in Hb as [->|Hb];
      [|apply elem_of_cons in Hb as [->|Hb]; [|apply elem_of_nil in Hb; contradiction]];
      run_handler; destruct (coachState c); simpl; split; intros H;
        try reflexivity; discriminate H.
  - simpl. destruct (coachState c); simpl; split; intros H;
      try reflexivity; try discriminate; try congruence.
Qed.

(** X9. After the [ai-coach] continuation the speech bubble is always
    rendered, typed out, whatever the invocation settled with. After a
    [generate-routine] invocation that resolves to an object whose [message]
    is missing or falsy, the coach is [talking] and no bubble is rendered. *)
Theorem bubble_after_settling s t fields c :
  truthy (assoc "message" fields) = false ->
  (exists m,
     bubble (render (after (handleSendMessage_settled s) c))
     = Shown (mkBubble m false (Typed [m])))
  /\ let c' := after (handleRoutineAction_settled t
                        (Resolved (mkResponse (VObj fields) None))) c in
     coachState c' = talking
     /\ bubble (render c') = Skipped (assoc "message" fields).
Proof.
  intros Hm. split.
  - destruct (ai_coach_says_something s c) as [Ht Hv].
    unfold render. rewrite Ht, Hv. cbn [CoachState_eqb].
    eexists. reflexivity.
  - cbn zeta.
    destruct (CoachFacts.routine_object_response_adopted t fields c)
      as (Ht & Hmsg & _).
    cbn zeta in Ht, Hmsg. split; [exact Ht|].
    unfold render. rewrite Hmsg, Hm. reflexivity.
Qed.

Lemma bubble_after_settling_witness :
  (exists m,
     bubble (render (after (handleSendMessage_settled (Rejected (mkError None)))
                       initial))
     = Shown (mkBubble m false (Typed [m])))
  /\ let c' := after (handleRoutineAction_settled morning
                        (Resolved (mkResponse (VObj [("message", VStr [])]) None)))
                     initial in
     coachState c' = talking
     /\ bubble (render c') = Skipped (VStr []).
Proof.
  apply (bubble_after_settling (Rejected (mkError None)) morning
           [("message", VStr [])] initial).
  reflexivity.
Defined.

End CoachPageFacts.

(** ** The route guard *)

Module ProtectedRouteFacts.
Import ProtectedRoute.

(** X10. The guard lets the protected pages through exactly when the
    session has been loaded and is present; it redirects to [/login]
    (replacing the history entry) exactly when loading is over and there is
    no session; and while loading it shows the spinner whatever the session
    is, so it neither redirects nor renders a page early. *)
Theorem outlet_needs_session {Session : Type} (session : option Session) loading :
  (render session loading = Outlet <-> loading = false /\ is_Some session)
  /\ (render session loading = Navigate "/login" true
      <-> loading = false /\ session = None)
  /\ (render session loading = Spinner <-> loading = true)
  /\ (forall to replace,
        render session loading = Navigate to replace ->
        to = "/login"%string /\ replace = true).
Proof.
  unfold render.
  destruct loading, session as [x|];
    repeat (first [split | intro]);
    repeat match goal with
           | H : _ /\ _ |- _ => destruct H
           | H : is_Some None |- _ => destruct H
           end;
    try discriminate; try congruence; eauto.
Qed.

End ProtectedRouteFacts.

(** ** The password reset page *)

Module ForgotPasswordFacts.
Import ForgotPasswordPage.

(** X11. A reset that resolves without an error ends, from any state of the
    page, with the success flag set, no error, the form cleared and the
    loading flag down; nothing escapes the handler. *)
Theorem reset_succeeds address err p :
  truthy err = false ->
  handlePasswordReset_settled (Resolved err) (handlePasswordReset address p).1
  = (mkPage false VNull true [], None).
Proof.
  intros H. unfold handlePasswordReset_settled, tryBody. simpl.
  rewrite H. reflexivity.
Qed.

Lemma reset_succeeds_witness :
  handlePasswordReset_settled (Resolved VNull)
    (handlePasswordReset (lit "a@b.co")
       (mkPage false (VStr (lit "Rate limited")) false (lit "a@b.co"))).1
  = (mkPage false VNull true [], None).
Proof.
  apply (reset_succeeds (lit "a@b.co") VNull
           (mkPage false (VStr (lit "Rate limited")) false (lit "a@b.co"))).
  reflexivity.
Defined.

(** X12. A reset that fails with an error object, resolved or rejected,
    keeps what was typed, leaves the success flag down and the loading flag
    down, and records as error the object's [error_description] when that is
    truthy and its [message] otherwise; nothing escapes the handler. *)
Theorem reset_fails address fields p :
  let shown :=
    jsOr (assoc "error_description" fields) (assoc "message" fields) in
  let p1 := (handlePasswordReset address p).1 in
  handlePasswordReset_settled (Resolved (VObj fields)) p1
  = (mkPage false shown false (email p), None)
  /\ handlePasswordReset_settled (Rejected (VObj fields)) p1
     = (mkPage false shown false (email p), None).
Proof.
  unfold handlePasswordReset_settled, tryBody, catchClause, jsOr. simpl.
  destruct (truthy (assoc "error_description" fields)); auto.
Qed.

(** X13. The loading flag is down after every settlement, also when the
    [catch] clause itself throws (a rejection with [null] or [undefined]):
    the page is then as the submit left it with the flag down, no error is
    recorded, and the exception escapes the handler. *)
Theorem reset_always_stops_loading address s p :
  let p1 := (handlePasswordReset address p).1 in
  loading (handlePasswordReset_settled s p1).1 = false
  /\ (handlePasswordReset_settled (Rejected VNull) p1).1
     = mkPage false VNull false (email p)
  /\ is_Some (handlePasswordReset_settled (Rejected VNull) p1).2
  /\ (handlePasswordReset_settled (Rejected VUndefined) p1).1
     = mkPage false VNull false (email p)
  /\ is_Some (handlePasswordReset_settled (Rejected VUndefined) p1).2.
Proof.
  cbn zeta. split; [|repeat split; eexists; reflexivity].
  unfold handlePasswordReset_settled.
  destruct (match tryBody s _ with inr p' => _ | inl e => _ end); reflexivity.
Qed.

(** X14. After a submit and its settlement the page never shows both
    alerts, the spinner is off, and the submit button is disabled exactly
    when the success alert is shown. Between the submit and the settlement
    it shows no alert, the spinner, and a disabled button. *)
Theorem one_alert_at_most address s p :
  let p1 := (handlePasswordReset address p).1 in
  let v := render (handlePasswordReset_settled s p1).1 in
  render p1 = mkView (CoachView.Skipped VNull) false true true
  /\ ~ (successAlert v = true /\ exists x, errorAlert v = CoachView.Shown x)
  /\ submitSpinner v = false
  /\ submitDisabled v = successAlert v.
Proof.
  cbn zeta. split; [reflexivity|].
  unfold handlePasswordReset_settled, tryBody, catchClause. simpl.
  destruct s as [err|reason].
  - destruct (truthy err) eqn:T; simpl.
    + destruct (getProp err "error_description") as [te|d]; simpl.
      * split; [intros [[=] _]|auto].
      * destruct (truthy d); simpl;
          [|destruct (getProp err "message") as [te|m]; simpl];
          (split; [intros [[=] _]|auto]).
    + split; [intros [_ [x [=]]]|auto].
  - destruct (getProp reason "error_description") as [te|d]; simpl.
    + split; [intros [[=] _]|auto].
    + destruct (truthy d); simpl;
        [|destruct (getProp reason "message") as [te|m]; simpl];
        (split; [intros [[=] _]|auto]).
Qed.

(** X15. A failure that brings neither a truthy [error_description] nor a
    truthy [message] is silent: after it the page shows no error alert and no
    success alert, with the button enabled again. *)
Theorem silent_failure address fields p :
  truthy (assoc "error_description" fields) = false ->
  truthy (assoc "message" fields) = false ->
  let p1 := (handlePasswordReset address p).1 in
  render (handlePasswordReset_settled (Resolved (VObj fields)) p1).1
  = mkView (CoachView.Skipped (assoc "message" fields)) false false false
  /\ render (handlePasswordReset_settled (Rejected (VObj fields)) p1).1
     = mkView (CoachView.Skipped (assoc "message" fields)) false false false.
Proof.
  intros Hd Hm. cbn zeta.
  unfold handlePasswordReset_settled, tryBody, catchClause, render. simpl.
  rewrite Hd. simpl. rewrite Hm. auto.
Qed.

Lemma silent_failure_witness :
  let p1 := (handlePasswordReset (lit "a@b.co") initial).1 in
  let fields := [("message"%string, VStr [])] in
  render (handlePasswordReset_settled (Resolved (VObj fields)) p1).1
  = mkView (CoachView.Skipped (VStr [])) false false false
  /\ render (handlePasswordReset_settled (Rejected (VObj fields)) p1).1
     = mkView (CoachView.Skipped (VStr [])) false false false.
Proof.
  apply (silent_failure (lit "a@b.co") [("message"%string, VStr [])] initial);
    reflexivity.
Defined.

End ForgotPasswordFacts.

(** ** The routines page, continued *)

Module RoutinesPageMore.
Import api DataStore RoutinesPage RoutinesPageActions.

Lemma find_first {A} (P : A -> Prop) `{forall x, Decision (P x)} l x :
  find P l = Some x ->
  exists before rest,
    l = before ++ x :: rest /\ P x /\ Forall (fun y => ~ P y) before.
Proof.
  revert x. induction l as [|y l IH]; intros x; [discriminate|].
  rewrite find_cons. destruct (decide (P y)) as [Hy|Hy].
  - intros [= ->]. exists [], l. auto.
  - intros Hx. destruct (IH x Hx) as (before & rest & -> & Px & Hb).
    exists (y :: before), rest. auto.
Qed.

(** X16. The page shows its tomes exactly when the store is not loading and
    the cache holds a morning routine and an evening routine; it then shows
    two cards, the first for the first morning routine of the cache with the
    sunrise icon, the second for the first evening routine with the sunset
    icon. *)
Theorem tomes_shown_exactly_when c :
  ((exists cards, render c = Rituals cards)
   <-> isLoadingRoutines c = false
       /\ (exists m, m ∈ routines c /\ time_of_day m = morning)
       /\ (exists e, e ∈ routines c /\ time_of_day e = evening))
  /\ (forall cards, render c = Rituals cards ->
        exists m e bm rm be re,
          cards = [renderRoutineCard c m "0s"; renderRoutineCard c e "0.2s"]
          /\ routines c = bm ++ m :: rm
          /\ time_of_day m = morning
          /\ Forall (fun r => time_of_day r <> morning) bm
          /\ routines c = be ++ e :: re
          /\ time_of_day e = evening
          /\ Forall (fun r => time_of_day r <> evening) be
          /\ icon (renderRoutineCard c m "0s") = Sunrise
          /\ icon (renderRoutineCard c e "0.2s") = Sunset).
Proof.
  unfold render. split.
  - destruct (isLoadingRoutines c).
    { split; [intros [? [=]]|intros [[=] _]]. }
    destruct (find (fun r => time_of_day r = morning) (routines c)) as [m|] eqn:Em.
    + destruct (find (fun r => time_of_day r = evening) (routines c)) as [e|] eqn:Ee.
      * split; [intros _|eauto].
        destruct (find_Some_holds _ _ _ Em), (find_Some_holds _ _ _ Ee).
        eauto 10.
      * split; [intros [? [=]]|]. intros (_ & _ & e & He & Ht).
        apply find_None in Ee. rewrite Forall_forall in Ee.
        exfalso. exact (Ee e He Ht).
    + split; [intros [? [=]]|]. intros (_ & (m & Hm & Ht) & _).
      apply find_None in Em. rewrite Forall_forall in Em.
      exfalso. exact (Em m Hm Ht).
  - intros cards. destruct (isLoadingRoutines c); [discriminate|].
    destruct (find (fun r => time_of_day r = morning) (routines c)) as [m|] eqn:Em;
      [|discriminate].
    destruct (find (fun r => time_of_day r = evening) (routines c)) as [e|] eqn:Ee;
      [|discriminate].
    intros [= <-].
    destruct (find_first _ _ _ Em) as (bm & rm & Hm & Pm & Fm).
    destruct (find_first _ _ _ Ee) as (be & re & He & Pe & Fe).
    exists m, e, bm, rm, be, re.
    unfold renderRoutineCard. simpl. rewrite Pm, Pe. simpl. auto 12.
Qed.

(** X17. Each card tracks exactly the habits of its routine, in the order
    of the cache, and every card is handed all the logs. When the two
    routines shown have different ids no habit is tracked by both cards, and
    a habit of neither routine is tracked by no card. *)
Theorem cards_split_habits c m e dm de h :
  let cm := renderRoutineCard c m dm in
  let ce := renderRoutineCard c e de in
  (h ∈ trackedHabits cm <-> h ∈ habits c /\ routine_id h = id m)
  /\ trackedHabits cm `sublist_of` habits c
  /\ trackedLogs cm = habitLogs c
  /\ trackedLogs ce = habitLogs c
  /\ (id m <> id e -> ~ (h ∈ trackedHabits cm /\ h ∈ trackedHabits ce))
  /\ (routine_id h <> id m -> routine_id h <> id e ->
      (h ∉ trackedHabits cm) /\ (h ∉ trackedHabits ce)).
Proof.
  cbn zeta. unfold renderRoutineCard. simpl.
  rewrite !list_elem_of_filter.
  split; [tauto|]. split; [apply sublist_filter|].
  split; [reflexivity|]. split; [reflexivity|].
  split; [intros Hne [[H1 _] [H2 _]]; congruence|].
  intros H1 H2. tauto.
Qed.

(** X18. Generating habits for a routine marks that routine's card with the
    spinner and no other card; it disables the button of every card unless
    the routine's id is 0, for which the buttons stay enabled. Once the
    invocation has settled, however it settled, no card is disabled or
    marked. *)
Theorem generating_marks_one_card routine other g s :
  let g1 := (handleGenerateHabits routine g).1 in
  let g2 := (handleGenerateHabits_settled s g1).1 in
  divineDisabled (renderActions g1 other) = negb (id routine =? 0)%Z
  /\ (divineSpinner (renderActions g1 other) = true <-> id other = id routine)
  /\ renderActions g2 other = mkActions false false.
Proof.
  cbn zeta. simpl. split; [reflexivity|]. split; [|reflexivity].
  rewrite bool_decide_eq_true. split; [intros [= ->]|intros ->]; reflexivity.
Qed.

(** X19. The handler asks the store to fetch again exactly when the
    invocation resolved without an error, and then before the success toast;
    in every other case it shows one failure toast and asks for nothing. The
    failure toast carries the error's own message when that is not empty and
    "The divination failed." otherwise; the success toast carries the
    response's [message] when that is truthy and "The ether has whispered
    new rituals!" otherwise. *)
Theorem refetch_exactly_on_success s g fields e :
  let effects := (handleGenerateHabits_settled s g).2 in
  (FetchRoutinesAndHabits ∈ effects
   <-> exists d, s = Coach.Resolved (Coach.mkResponse d None))
  /\ (FetchRoutinesAndHabits ∉ effects -> exists text, effects = [ToastError text])
  /\ (handleGenerateHabits_settled
        (Coach.Resolved (Coach.mkResponse (VObj fields) None)) g).2
     = [FetchRoutinesAndHabits;
        ToastSuccess
          (inr (if truthy (assoc "message" fields)
                then assoc "message" fields
                else VStr (lit "The ether has whispered new rituals!")))]
  /\ (handleGenerateHabits_settled (Coach.Rejected e) g).2
     = [ToastError match message e with
                   | None | Some [] => lit "The divination failed."
                   | Some m => m
                   end].
Proof.
  cbn zeta. split; [|split; [|split]].
  - destruct s as [[d [err|]]|err]; simpl.
    + split; [intros Hin|intros [? [=]]].
      apply elem_of_cons in Hin as [[=]|Hin]. apply elem_of_nil in Hin. contradiction.
    + split; [eauto|intros _; apply list_elem_of_here].
    + split; [intros Hin|intros [? [=]]].
      apply elem_of_cons in Hin as [[=]|Hin]. apply elem_of_nil in Hin. contradiction.
  - destruct s as [[d [err|]]|err]; simpl; eauto.
    intros Hn. exfalso. apply Hn, list_elem_of_here.
  - reflexivity.
  - simpl. unfold errorLabel, messageOr.
    destruct (message e) as [[|ch m]|]; reflexivity.
Qed.

End RoutinesPageMore.
